(** * Automatic AI stock and crypto trader: risk engine, trend analyser,
      regime detection, recommendation lifecycle and crypto executor.

    Shallow embedding of the Python sources under [backend/app].

    Conventions of the embedding:
    - a Python [float] is an exact rational ([Q]); comparisons are the
      boolean comparisons of [Q], and [/] raises [ZeroDivisionError] on a
      zero divisor exactly as Python does;
    - an [Optional[float]] is an [option Q], and Python truthiness
      ([if x:], [x or y]) is [truthy];
    - a function that can raise returns a [result];
    - a [datetime] is an integer number of clock ticks ([Z]);
    - SQL tables are finite maps from the primary key to the row. *)

From Stdlib Require Import QArith Qminmax Qabs Qround Qpower ZArith Zpow_facts Lia Lqa Sorted.
From stdpp Require Import gmap strings list fin_maps.

Local Open Scope Q_scope.

(** ** Python semantics shared by all modules *)

Module Py.

Inductive exn : Type :=
| ZeroDivisionError
| BrokerError (msg : string).

Inductive result (A : Type) : Type :=
| Ok (a : A)
| Raise (e : exn).
Arguments Ok {A} a.
Arguments Raise {A} e.

#[global] Instance result_ret : MRet result := fun A a => Ok a.
#[global] Instance result_bind : MBind result := fun A B k r =>
  match r with
  | Ok a => k a
  | Raise e => Raise e
  end.

(** [str(e)] for a caught exception. *)
Definition exn_str (e : exn) : string :=
  match e with
  | ZeroDivisionError => "float division by zero"
  | BrokerError msg => msg
  end.

(** Truthiness of a string: only the empty string is falsy. *)
Definition truthy_str (s : string) : bool := negb (String.eqb s "").

(** [x < y] on floats. *)
Definition Qlt_bool (x y : Q) : bool := negb (Qle_bool y x).

(** [x / y]: true division, raising on a zero divisor. *)
Definition div (x y : Q) : result Q :=
  if Qeq_bool y 0 then Raise ZeroDivisionError else Ok (x / y).

(** [min(a, b)] and [max(a, b)]: the first argument wins ties. *)
Definition min (a b : Q) : Q := if Qlt_bool b a then b else a.
Definition max (a b : Q) : Q := if Qlt_bool a b then b else a.

(** Truthiness of an [Optional[float]]: [None] and [0] are falsy. *)
Definition truthy (o : option Q) : bool :=
  match o with
  | Some x => negb (Qeq_bool x 0)
  | None => false
  end.

(** [int(x)]: truncation toward zero. *)
Definition int (x : Q) : Z := Z.quot (Qnum x) (Zpos (Qden x)).

(** [len(l)] as a float operand. *)
Definition len {A : Type} (l : list A) : Q := inject_Z (Z.of_nat (length l)).

(** [sum(l)]. *)
Definition sum (l : list Q) : Q := fold_left Qplus l 0.

End Py.

Import Py.

(** ** gem_hunter/risk_manager.py *)

Module GemRisk.

(** One entry of [_trade_history]. *)
Record TradeRecord : Type := {
  tr_symbol : string;
  tr_entry_price : Q;
  tr_exit_price : Q;
  tr_pnl : Q;
  tr_pnl_pct : Q;
  tr_date : Z
}.

Record RiskManager : Type := {
  allocated_capital : Q;
  max_positions : Q;
  max_position_pct : Q;
  kelly_multiplier : Q;
  daily_loss_limit_pct : Q;
  stop_loss_pct : Q;
  take_profit_pct : Q;
  _trade_history : list TradeRecord;
  _daily_pnl : gmap Z Q
}.

(** [config.get(key, default)]. *)
Definition config_get (config : gmap string Q) (key : string) (d : Q) : Q :=
  default d (config !! key).

(** [RiskManager.__init__]. *)
Definition __init__ (config : gmap string Q) : RiskManager := {|
  allocated_capital := config_get config "allocated_capital" 10000;
  max_positions := config_get config "max_positions" 5;
  max_position_pct := config_get config "max_position_pct" 0.25;
  kelly_multiplier := config_get config "kelly_multiplier" 0.5;
  daily_loss_limit_pct := config_get config "daily_loss_limit_pct" 0.05;
  stop_loss_pct := config_get config "stop_loss_pct" 0.08;
  take_profit_pct := config_get config "take_profit_pct" 0.20;
  _trade_history := [];
  _daily_pnl := ∅
|}.

Record Stats : Type := {
  win_rate : Q;
  avg_win : Q;
  avg_loss : Q;
  total_trades : Z
}.

(** [RiskManager._calculate_historical_stats]. *)
Definition _calculate_historical_stats (self : RiskManager) : Stats :=
  match _trade_history self with
  | [] =>
      {| win_rate := 0.50;
         avg_win := take_profit_pct self;
         avg_loss := stop_loss_pct self;
         total_trades := 0 |}
  | _ =>
      let wins := List.filter (fun t => Qlt_bool 0 (tr_pnl t)) (_trade_history self) in
      let losses := List.filter (fun t => Qle_bool (tr_pnl t) 0) (_trade_history self) in
      {| win_rate := Py.len wins / Py.len (_trade_history self);
         avg_win :=
           match wins with
           | [] => take_profit_pct self
           | _ => Py.sum (map tr_pnl_pct wins) / Py.len wins
           end;
         avg_loss :=
           match losses with
           | [] => stop_loss_pct self
           | _ => Qabs (Py.sum (map tr_pnl_pct losses) / Py.len losses)
           end;
         total_trades := Z.of_nat (length (_trade_history self)) |}
  end.

(** [RiskManager.kelly_fraction].  The keyword arguments of the final
    [logger.debug] call are evaluated before the call, so the division
    [kelly / self.kelly_multiplier] is part of the control flow. *)
Definition kelly_fraction (self : RiskManager)
    (win_rate avg_win avg_loss : option Q) : result Q :=
  let '(win_rate, avg_win, avg_loss) :=
    match win_rate, avg_win, avg_loss with
    | Some p, Some w, Some l => (p, w, l)
    | _, _, _ =>
        let stats := _calculate_historical_stats self in
        (GemRisk.win_rate stats, GemRisk.avg_win stats, GemRisk.avg_loss stats)
    end in
  let avg_loss := if Qle_bool avg_loss 0 then stop_loss_pct self else avg_loss in
  b ← Py.div avg_win avg_loss;
  let p := win_rate in
  let q := 1 - p in
  kelly ← Py.div (b * p - q) b;
  let kelly := kelly * kelly_multiplier self in
  let kelly := Py.max 0 (Py.min kelly (max_position_pct self)) in
  raw_kelly ← Py.div kelly (kelly_multiplier self);
  Ok kelly.

(** [RiskManager.record_trade] (the date is always supplied here). *)
Definition record_trade (self : RiskManager) (symbol : string)
    (entry_price exit_price pnl : Q) (trade_date : Z) : RiskManager :=
  let pnl_pct :=
    if Qlt_bool 0 entry_price
    then (exit_price - entry_price) / entry_price else 0 in
  let entry := {| tr_symbol := symbol; tr_entry_price := entry_price;
                  tr_exit_price := exit_price; tr_pnl := pnl;
                  tr_pnl_pct := pnl_pct; tr_date := trade_date |} in
  {| allocated_capital := allocated_capital self;
     max_positions := max_positions self;
     max_position_pct := max_position_pct self;
     kelly_multiplier := kelly_multiplier self;
     daily_loss_limit_pct := daily_loss_limit_pct self;
     stop_loss_pct := stop_loss_pct self;
     take_profit_pct := take_profit_pct self;
     _trade_history := _trade_history self ++ [entry];
     _daily_pnl :=
       <[trade_date := default 0 (_daily_pnl self !! trade_date) + pnl]>
         (_daily_pnl self) |}.

(** The result of [calculate_position_size]; the free-text [reasoning]
    field, a formatted string, is not modelled. *)
Record PositionSize : Type := {
  ps_symbol : string;
  ps_shares : Z;
  ps_dollar_amount : Q;
  ps_position_pct : Q;
  ps_kelly_fraction : Q
}.

(** [kelly_amount = self.allocated_capital * kelly]. *)
Definition kelly_amount (self : RiskManager) (kelly : Q) : Q :=
  allocated_capital self * kelly.

(** [RiskManager.calculate_position_size]. *)
Definition calculate_position_size (self : RiskManager) (symbol : string)
    (entry_price deployed_capital : Q) (open_positions : Z)
    : result PositionSize :=
  let available := allocated_capital self - deployed_capital in
  let empty := {| ps_symbol := symbol; ps_shares := 0; ps_dollar_amount := 0;
                  ps_position_pct := 0; ps_kelly_fraction := 0 |} in
  if Qle_bool (max_positions self) (inject_Z open_positions) then Ok empty
  else if Qle_bool available 0 then Ok empty
  else
    kelly ← kelly_fraction self None None None;
    let kelly_amount := kelly_amount self kelly in
    let max_amount := allocated_capital self * max_position_pct self in
    let position_amount := Py.min (Py.min kelly_amount max_amount) available in
    ratio ← Py.div position_amount entry_price;
    let shares := Py.int ratio in
    let actual_amount := inject_Z shares * entry_price in
    let position_pct :=
      if Qlt_bool 0 (allocated_capital self)
      then actual_amount / allocated_capital self else 0 in
    Ok {| ps_symbol := symbol; ps_shares := shares;
          ps_dollar_amount := actual_amount;
          ps_position_pct := position_pct;
          ps_kelly_fraction := kelly |}.

(** [RiskManager.calculate_stop_loss]. *)
Definition calculate_stop_loss (self : RiskManager) (entry_price : Q)
    (atr : option Q) : Q :=
  match atr with
  | Some a =>
      if truthy atr then entry_price - 2 * a
      else entry_price * (1 - stop_loss_pct self)
  | None => entry_price * (1 - stop_loss_pct self)
  end.

(** [RiskManager.calculate_take_profit]. *)
Definition calculate_take_profit (self : RiskManager) (entry_price : Q)
    (stop_loss : option Q) : Q :=
  match stop_loss with
  | Some stop =>
      if truthy stop_loss then
        let risk := entry_price - stop in
        entry_price + risk * 2.5
      else entry_price * (1 + take_profit_pct self)
  | None => entry_price * (1 + take_profit_pct self)
  end.

(** [RiskManager.should_exit]; [days_held] and [max_hold_days] are
    Python integers. *)
Definition should_exit (self : RiskManager)
    (current_price entry_price stop_loss take_profit : Q)
    (days_held max_hold_days : Z) : bool * option string :=
  if Qle_bool current_price stop_loss then (true, Some "stop_loss")
  else if Qle_bool take_profit current_price then (true, Some "take_profit")
  else if (max_hold_days <=? days_held)%Z then (true, Some "max_hold_days")
  else (false, None).

(** [RiskManager.check_daily_limit]. *)
Definition check_daily_limit (self : RiskManager) (current_daily_pnl : Q) : bool :=
  let daily_limit := allocated_capital self * daily_loss_limit_pct self in
  Qle_bool current_daily_pnl (- daily_limit).

Record RiskStatus : Type := {
  rs_allocated_capital : Q;
  rs_deployed_capital : Q;
  rs_available_capital : Q;
  rs_deployed_pct : Q;
  rs_daily_pnl : Q;
  rs_daily_pnl_pct : Q;
  rs_is_daily_limit_hit : bool;
  rs_open_positions : Z;
  rs_max_positions : Q;
  rs_can_open_new : bool
}.

(** [RiskManager.get_risk_status]. *)
Definition get_risk_status (self : RiskManager) (deployed_capital : Q)
    (open_positions : Z) (daily_pnl : Q) : RiskStatus :=
  let available := allocated_capital self - deployed_capital in
  let deployed_pct :=
    if Qlt_bool 0 (allocated_capital self)
    then deployed_capital / allocated_capital self else 0 in
  let daily_pnl_pct :=
    if Qlt_bool 0 (allocated_capital self)
    then daily_pnl / allocated_capital self else 0 in
  let is_limit_hit := check_daily_limit self daily_pnl in
  let can_open :=
    Qlt_bool (inject_Z open_positions) (max_positions self)
    && Qlt_bool 0 available && negb is_limit_hit in
  {| rs_allocated_capital := allocated_capital self;
     rs_deployed_capital := deployed_capital;
     rs_available_capital := available;
     rs_deployed_pct := deployed_pct;
     rs_daily_pnl := daily_pnl;
     rs_daily_pnl_pct := daily_pnl_pct;
     rs_is_daily_limit_hit := is_limit_hit;
     rs_open_positions := open_positions;
     rs_max_positions := max_positions self;
     rs_can_open_new := can_open |}.

End GemRisk.

(** ** crypto_hunter/risk_manager.py *)

Module CryptoRisk.

Record TradeRecord : Type := {
  tr_symbol : string;
  tr_entry_price : Q;
  tr_exit_price : Q;
  tr_pnl : Q;
  tr_pnl_pct : Q;
  tr_date : Z
}.

Record CryptoRiskManager : Type := {
  allocated_capital : Q;
  max_positions : Q;
  max_position_pct : Q;
  kelly_multiplier : Q;
  daily_loss_limit_pct : Q;
  stop_loss_pct : Q;
  take_profit_pct : Q;
  max_hold_hours : Q;
  _trade_history : list TradeRecord;
  _daily_pnl : gmap Z Q
}.

Definition config_get (config : gmap string Q) (key : string) (d : Q) : Q :=
  default d (config !! key).

(** [CryptoRiskManager.__init__]. *)
Definition __init__ (config : gmap string Q) : CryptoRiskManager := {|
  allocated_capital := config_get config "allocated_capital" 5000;
  max_positions := config_get config "max_positions" 5;
  max_position_pct := config_get config "max_position_pct" 0.20;
  kelly_multiplier := config_get config "kelly_multiplier" 0.5;
  daily_loss_limit_pct := config_get config "daily_loss_limit_pct" 0.05;
  stop_loss_pct := config_get config "stop_loss_pct" 0.10;
  take_profit_pct := config_get config "take_profit_pct" 0.25;
  max_hold_hours := config_get config "max_hold_hours" 168;
  _trade_history := [];
  _daily_pnl := ∅
|}.

Record Stats : Type := {
  win_rate : Q;
  avg_win : Q;
  avg_loss : Q;
  total_trades : Z
}.

(** [CryptoRiskManager._calculate_historical_stats]. *)
Definition _calculate_historical_stats (self : CryptoRiskManager) : Stats :=
  match _trade_history self with
  | [] =>
      {| win_rate := 0.45;
         avg_win := take_profit_pct self;
         avg_loss := stop_loss_pct self;
         total_trades := 0 |}
  | _ =>
      let wins := List.filter (fun t => Qlt_bool 0 (tr_pnl t)) (_trade_history self) in
      let losses := List.filter (fun t => Qle_bool (tr_pnl t) 0) (_trade_history self) in
      {| win_rate := Py.len wins / Py.len (_trade_history self);
         avg_win :=
           match wins with
           | [] => take_profit_pct self
           | _ => Py.sum (map tr_pnl_pct wins) / Py.len wins
           end;
         avg_loss :=
           match losses with
           | [] => stop_loss_pct self
           | _ => Qabs (Py.sum (map tr_pnl_pct losses) / Py.len losses)
           end;
         total_trades := Z.of_nat (length (_trade_history self)) |}
  end.

(** [CryptoRiskManager.kelly_fraction].  Here the logged [raw_kelly] is
    guarded by [if self.kelly_multiplier else 0], so logging cannot raise. *)
Definition kelly_fraction (self : CryptoRiskManager)
    (win_rate avg_win avg_loss : option Q) : result Q :=
  let '(win_rate, avg_win, avg_loss) :=
    match win_rate, avg_win, avg_loss with
    | Some p, Some w, Some l => (p, w, l)
    | _, _, _ =>
        let stats := _calculate_historical_stats self in
        (CryptoRisk.win_rate stats, CryptoRisk.avg_win stats,
         CryptoRisk.avg_loss stats)
    end in
  let avg_loss := if Qle_bool avg_loss 0 then stop_loss_pct self else avg_loss in
  b ← Py.div avg_win avg_loss;
  let p := win_rate in
  let q := 1 - p in
  kelly ← Py.div (b * p - q) b;
  let kelly := kelly * kelly_multiplier self in
  let max_kelly := Py.min (max_position_pct self) 0.15 in
  let kelly := Py.max 0 (Py.min kelly max_kelly) in
  raw_kelly ← (if truthy (Some (kelly_multiplier self))
               then Py.div kelly (kelly_multiplier self) else Ok 0);
  Ok kelly.

(** [CryptoRiskManager.calculate_stop_loss]. *)
Definition calculate_stop_loss (self : CryptoRiskManager) (entry_price : Q)
    (volatility : option Q) : Q :=
  match volatility with
  | Some v =>
      if truthy volatility && Qlt_bool 0 v then entry_price - 2 * v
      else entry_price * (1 - stop_loss_pct self)
  | None => entry_price * (1 - stop_loss_pct self)
  end.

(** [CryptoRiskManager.calculate_take_profit]. *)
Definition calculate_take_profit (self : CryptoRiskManager) (entry_price : Q)
    (stop_loss : option Q) : Q :=
  match stop_loss with
  | Some stop =>
      if truthy stop_loss then
        let risk := entry_price - stop in
        entry_price + risk * 2.5
      else entry_price * (1 + take_profit_pct self)
  | None => entry_price * (1 + take_profit_pct self)
  end.

(** [CryptoRiskManager.should_exit]. *)
Definition should_exit (self : CryptoRiskManager)
    (current_price entry_price stop_loss take_profit hours_held : Q)
    : result (bool * option string) :=
  if Qle_bool current_price stop_loss then Ok (true, Some "stop_loss")
  else if Qle_bool take_profit current_price then Ok (true, Some "take_profit")
  else if Qle_bool (max_hold_hours self) hours_held
  then Ok (true, Some "max_hold_time")
  else
    pnl_pct ← Py.div (current_price - entry_price) entry_price;
    if Qlt_bool 0.15 pnl_pct && Qle_bool current_price (entry_price * 1.01)
    then Ok (true, Some "trailing_stop")
    else Ok (false, None).

(** [CryptoRiskManager.record_trade] (the date is always supplied here). *)
Definition record_trade (self : CryptoRiskManager) (symbol : string)
    (entry_price exit_price pnl : Q) (trade_date : Z) : CryptoRiskManager :=
  let pnl_pct :=
    if Qlt_bool 0 entry_price
    then (exit_price - entry_price) / entry_price else 0 in
  let entry := {| tr_symbol := symbol; tr_entry_price := entry_price;
                  tr_exit_price := exit_price; tr_pnl := pnl;
                  tr_pnl_pct := pnl_pct; tr_date := trade_date |} in
  {| allocated_capital := allocated_capital self;
     max_positions := max_positions self;
     max_position_pct := max_position_pct self;
     kelly_multiplier := kelly_multiplier self;
     daily_loss_limit_pct := daily_loss_limit_pct self;
     stop_loss_pct := stop_loss_pct self;
     take_profit_pct := take_profit_pct self;
     max_hold_hours := max_hold_hours self;
     _trade_history := _trade_history self ++ [entry];
     _daily_pnl :=
       <[trade_date := default 0 (_daily_pnl self !! trade_date) + pnl]>
         (_daily_pnl self) |}.

(** The result of [calculate_position_size], without the formatted
    [reasoning] text. *)
Record CryptoPositionSize : Type := {
  ps_symbol : string;
  ps_quantity : Q;
  ps_dollar_amount : Q;
  ps_position_pct : Q;
  ps_kelly_fraction : Q
}.

(** [CryptoRiskManager.calculate_position_size]. *)
Definition calculate_position_size (self : CryptoRiskManager) (symbol : string)
    (entry_price : Q) (stop_loss : option Q) (deployed_capital : Q)
    (open_positions : Z) : result CryptoPositionSize :=
  let available := allocated_capital self - deployed_capital in
  let empty := {| ps_symbol := symbol; ps_quantity := 0; ps_dollar_amount := 0;
                  ps_position_pct := 0; ps_kelly_fraction := 0 |} in
  if Qle_bool (max_positions self) (inject_Z open_positions) then Ok empty
  else if Qle_bool available 0 then Ok empty
  else
    kelly ← kelly_fraction self None None None;
    let kelly_amount := allocated_capital self * kelly in
    let risk_amount :=
      match stop_loss with
      | Some stop =>
          if truthy stop_loss && Qlt_bool 0 entry_price then
            let risk_pct := Qabs (entry_price - stop) / entry_price in
            if Qlt_bool 0 risk_pct then
              let max_risk := allocated_capital self * 0.02 in
              max_risk / risk_pct
            else kelly_amount
          else kelly_amount
      | None => kelly_amount
      end in
    let position_amount := Py.min kelly_amount risk_amount in
    let max_amount := allocated_capital self * max_position_pct self in
    let position_amount := Py.min (Py.min position_amount max_amount) available in
    let quantity :=
      if Qlt_bool 0 entry_price then position_amount / entry_price else 0 in
    let actual_amount := quantity * entry_price in
    let position_pct :=
      if Qlt_bool 0 (allocated_capital self)
      then actual_amount / allocated_capital self else 0 in
    Ok {| ps_symbol := symbol; ps_quantity := quantity;
          ps_dollar_amount := actual_amount;
          ps_position_pct := position_pct;
          ps_kelly_fraction := kelly |}.

(** [CryptoRiskManager.check_daily_limit]. *)
Definition check_daily_limit (self : CryptoRiskManager) (current_daily_pnl : Q)
    : bool :=
  let daily_limit := allocated_capital self * daily_loss_limit_pct self in
  Qle_bool current_daily_pnl (- daily_limit).



End CryptoRisk.

(** ** crypto_hunter/trend_analyzer.py *)

Module Trend.

Inductive TrendDirection : Type := BULLISH | BEARISH | NEUTRAL.


(** [TrendSignal]; the [description] text, which formats a float, is not
    modelled. *)
Record TrendSignal : Type := {
  indicator : string;
  signal : string;
  value : Q
}.


Record TrendAnalyzer : Type := {
  rsi_oversold : Q;
  rsi_overbought : Q
}.

(** [TrendAnalyzer.__init__]. *)
Definition __init__ (config : gmap string Q) : TrendAnalyzer := {|
  rsi_oversold := default 30 (config !! "rsi_oversold");
  rsi_overbought := default 70 (config !! "rsi_overbought")
|}.

(** [l[-n:]] for a positive [n]. *)
Definition last_n {A : Type} (n : nat) (l : list A) : list A :=
  skipn (length l - n) l.

(** [list.sort()]: stable, ascending. *)
Fixpoint insert_asc (x : Q) (l : list Q) : list Q :=
  match l with
  | [] => [x]
  | y :: l' => if Qle_bool x y then x :: l else y :: insert_asc x l'
  end.
Definition sort_asc (l : list Q) : list Q := foldr insert_asc [] l.

(** [list.sort(reverse=True)]: stable, descending. *)
Fixpoint insert_desc (x : Q) (l : list Q) : list Q :=
  match l with
  | [] => [x]
  | y :: l' => if Qle_bool y x then x :: l else y :: insert_desc x l'
  end.
Definition sort_desc (l : list Q) : list Q := foldr insert_desc [] l.

(** [min(l)] and [max(l)] of a non-empty list, given by its head and tail. *)
Definition list_min (x : Q) (l : list Q) : Q :=
  fold_left (fun m y => if Qlt_bool y m then y else m) l x.
Definition list_max (x : Q) (l : list Q) : Q :=
  fold_left (fun m y => if Qlt_bool m y then y else m) l x.


(** [sum(1 for s in signals if s.signal == label)]. *)
Definition count_signal (label : string) (signals : list TrendSignal) : nat :=
  length (List.filter (fun s => String.eqb (signal s) label) signals).

Definition of_nat (n : nat) : Q := inject_Z (Z.of_nat n).

(** [TrendAnalyzer._determine_trend]. *)
Definition _determine_trend (signals : list TrendSignal)
    : result (TrendDirection * Q) :=
  match signals with
  | [] => Ok (NEUTRAL, 0)
  | _ =>
      let bullish_count := count_signal "bullish" signals in
      let bearish_count := count_signal "bearish" signals in
      let total := length signals in
      if (bearish_count <? bullish_count)%nat then
        r ← Py.div (of_nat bullish_count) (of_nat total);
        Ok (BULLISH, r * 100)
      else if (bullish_count <? bearish_count)%nat then
        r ← Py.div (of_nat bearish_count) (of_nat total);
        Ok (BEARISH, r * 100)
      else Ok (NEUTRAL, 50)
  end.

(** [TrendAnalyzer._calculate_score]. *)
Definition _calculate_score (signals : list TrendSignal)
    (direction : TrendDirection) (strength : Q) : result Q :=
  match signals with
  | [] => Ok 50
  | _ =>
      let bullish_count := count_signal "bullish" signals in
      let total := length signals in
      r ← Py.div (of_nat bullish_count) (of_nat total);
      let base_score := 50 + (r - 0.5) * 100 in
      let score := base_score * (0.5 + strength / 200) in
      Ok (Py.max 0 (Py.min 100 score))
  end.



(** [TrendAnalyzer._calculate_ema]; [period] is a positive constant at
    every call site. *)
Definition _calculate_ema (prices : list Q) (period : nat) : option Q :=
  if (length prices <? period)%nat then None
  else
    let multiplier := 2 / (of_nat period + 1) in
    let ema := Py.sum (firstn period prices) / of_nat period in
    Some (fold_left
            (fun ema price => price * multiplier + ema * (1 - multiplier))
            (skipn period prices) ema).

(** [[prices[i] - prices[i-1] for i in range(1, len(prices))]]. *)
Fixpoint deltas (prices : list Q) : list Q :=
  match prices with
  | p0 :: ((p1 :: _) as rest) => (p1 - p0) :: deltas rest
  | _ => []
  end.

(** [TrendAnalyzer._calculate_rsi]. *)
Definition _calculate_rsi (prices : list Q) (period : nat)
    : result (option Q) :=
  if (length prices <? period + 1)%nat then Ok None
  else
    let deltas := deltas prices in
    let gains := map (fun d => if Qlt_bool 0 d then d else 0) deltas in
    let losses := map (fun d => if Qlt_bool d 0 then - d else 0) deltas in
    let avg_gain := Py.sum (last_n period gains) / of_nat period in
    let avg_loss := Py.sum (last_n period losses) / of_nat period in
    if Qeq_bool avg_loss 0 then Ok (Some 100)
    else
      rs ← Py.div avg_gain avg_loss;
      q ← Py.div 100 (1 + rs);
      Ok (Some (100 - q)).

(** [TrendAnalyzer._calculate_macd]. *)
Definition _calculate_macd (prices : list Q) (fast slow signal : nat)
    : option Q * option Q * option Q :=
  if (length prices <? slow + signal)%nat then (None, None, None)
  else
    match _calculate_ema prices fast, _calculate_ema prices slow with
    | Some ema_fast, Some ema_slow =>
        let macd_line := ema_fast - ema_slow in
        let signal_line := macd_line * 0.9 in
        let histogram := macd_line - signal_line in
        (Some macd_line, Some signal_line, Some histogram)
    | _, _ => (None, None, None)
    end.

(** The local minima collected by [_find_support_levels]. *)
Fixpoint local_minima (prices : list Q) : list Q :=
  match prices with
  | a :: ((b :: c :: _) as rest) =>
      if Qlt_bool b a && Qlt_bool b c then b :: local_minima rest
      else local_minima rest
  | _ => []
  end.

(** [TrendAnalyzer._find_support_levels]. *)
Definition _find_support_levels (prices : list Q) (num_levels : nat) : list Q :=
  if (length prices <? 10)%nat then []
  else
    match local_minima prices, prices with
    | [], p :: ps => [list_min p ps]
    | minima, _ => firstn num_levels (sort_asc minima)
    end.

(** The local maxima collected by [_find_resistance_levels]. *)
Fixpoint local_maxima (prices : list Q) : list Q :=
  match prices with
  | a :: ((b :: c :: _) as rest) =>
      if Qlt_bool a b && Qlt_bool c b then b :: local_maxima rest
      else local_maxima rest
  | _ => []
  end.

(** [TrendAnalyzer._find_resistance_levels]. *)
Definition _find_resistance_levels (prices : list Q) (num_levels : nat) : list Q :=
  if (length prices <? 10)%nat then []
  else
    match local_maxima prices, prices with
    | [], p :: ps => [list_max p ps]
    | maxima, _ => firstn num_levels (sort_desc maxima)
    end.

(** A [TrendSignal(...)] construction. *)
Definition mk_signal (indicator signal : string) (value : Q) : TrendSignal :=
  {| indicator := indicator; signal := signal; value := value |}.




(** The MACD block of [analyze]; [macd_hist or 0] is the signal value. *)
Definition macd_signals (macd_value macd_signal macd_hist : option Q)
    : list TrendSignal :=
  match macd_value, macd_signal with
  | Some m, Some sg =>
      let v := if truthy macd_hist then default 0 macd_hist else 0 in
      if Qlt_bool sg m then [mk_signal "MACD" "bullish" v]
      else [mk_signal "MACD" "bearish" v]
  | _, _ => []
  end.


Section Analyze.

(** [x ** 0.5] on floats has no exact rational counterpart: the
    analyser is parametrised by the square-root function. *)
Variable pow_half : Q -> Q.



End Analyze.

End Trend.

(** ** services/broker/ib_client.py, as seen by its callers

    The broker is an external collaborator: the answers it gives to the
    calls made below are the fields of [IBClient]. *)

Module IB.

Record IBClient : Type := {
  (** the [is_connected] property before any call *)
  is_connected : bool;
  (** the outcome of [await connect()] *)
  connect : bool;
  (** the outcome of [await get_qqq_price()] once connected *)
  get_qqq_price : result (option Q);
  (** the outcome of [await place_spread_order(short_strike, long_strike,
      expiration, right, quantity, limit_price)] *)
  place_spread_order :
    option Q -> option Q -> option string -> string -> option Z -> option Q ->
    result (option string)
}.

End IB.

(** ** models/agent.py *)

Module Models.

Inductive RegimeType : Type :=
| NORMAL_BULL | DEFENSE_TRIGGER | RECOVERY_MODE | RECOVERY_COMPLETE.

#[global] Instance RegimeType_eq_dec : EqDecision RegimeType.
Proof. solve_decision. Defined.

(** The columns of [Regime] read by the orchestrator. *)
Record Regime : Type := {
  regime_type : RegimeType;
  recovery_strike : option Q
}.

Inductive RecommendationStatus : Type :=
| PENDING | APPROVED | REJECTED | EXECUTED | EXPIRED.

#[global] Instance RecommendationStatus_eq_dec : EqDecision RecommendationStatus.
Proof. solve_decision. Defined.

(** [RecommendationStatus.value]. *)
Definition status_value (s : RecommendationStatus) : string :=
  match s with
  | PENDING => "pending"
  | APPROVED => "approved"
  | REJECTED => "rejected"
  | EXECUTED => "executed"
  | EXPIRED => "expired"
  end.

(** The columns of [TradeRecommendation] read or written by the
    lifecycle operations; [expires_at] is set on every created row. *)
Record TradeRecommendation : Type := {
  id : Z;
  expires_at : Z;
  status : RecommendationStatus;
  action : string;
  short_strike : option Q;
  long_strike : option Q;
  expiration : option string;
  contracts : option Z;
  estimated_credit : option Q;
  approved_at : option Z;
  rejected_at : option Z;
  rejection_reason : option string;
  executed_at : option Z;
  order_id : option string;
  execution_price : option Q
}.

Definition set_status (s : RecommendationStatus) (r : TradeRecommendation)
    : TradeRecommendation :=
  {| id := id r; expires_at := expires_at r; status := s;
     action := action r; short_strike := short_strike r;
     long_strike := long_strike r; expiration := expiration r;
     contracts := contracts r; estimated_credit := estimated_credit r;
     approved_at := approved_at r; rejected_at := rejected_at r;
     rejection_reason := rejection_reason r; executed_at := executed_at r;
     order_id := order_id r; execution_price := execution_price r |}.

Definition set_approved_at (t : Z) (r : TradeRecommendation)
    : TradeRecommendation :=
  {| id := id r; expires_at := expires_at r; status := status r;
     action := action r; short_strike := short_strike r;
     long_strike := long_strike r; expiration := expiration r;
     contracts := contracts r; estimated_credit := estimated_credit r;
     approved_at := Some t; rejected_at := rejected_at r;
     rejection_reason := rejection_reason r; executed_at := executed_at r;
     order_id := order_id r; execution_price := execution_price r |}.

Definition set_rejected (t : Z) (reason : option string)
    (r : TradeRecommendation) : TradeRecommendation :=
  {| id := id r; expires_at := expires_at r; status := status r;
     action := action r; short_strike := short_strike r;
     long_strike := long_strike r; expiration := expiration r;
     contracts := contracts r; estimated_credit := estimated_credit r;
     approved_at := approved_at r; rejected_at := Some t;
     rejection_reason := reason; executed_at := executed_at r;
     order_id := order_id r; execution_price := execution_price r |}.

Definition set_executed (t : Z) (oid : string) (price : option Q)
    (r : TradeRecommendation) : TradeRecommendation :=
  {| id := id r; expires_at := expires_at r; status := status r;
     action := action r; short_strike := short_strike r;
     long_strike := long_strike r; expiration := expiration r;
     contracts := contracts r; estimated_credit := estimated_credit r;
     approved_at := approved_at r; rejected_at := rejected_at r;
     rejection_reason := rejection_reason r; executed_at := Some t;
     order_id := Some oid; execution_price := price |}.

End Models.

(** ** core/config.py *)

Module Config.

(** The trading settings read by the orchestrator. *)
Record Settings : Type := {
  VIX_SHUTDOWN_THRESHOLD : Q
}.

(** The values of a [Settings()] built with no environment override. *)
Definition settings : Settings := {| VIX_SHUTDOWN_THRESHOLD := 45.0 |}.

End Config.

(** ** services/orchestrator.py *)

Module Orchestrator.
Import Models.

Record OrchestratorService : Type := {
  current_qqq_price : option Q;
  current_vix : option Q;
  last_short_put_strike : option Q
}.

(** The dictionary returned by [get_market_data], without its timestamp. *)
Record MarketData : Type := {
  qqq_price : Q;
  vix : Q;
  iv_7day_atm : Q;
  source : string
}.

(** [OrchestratorService.ensure_ib_connected]: the connection state after
    the call, and the returned flag. *)
Definition ensure_ib_connected (ib : IB.IBClient) : bool :=
  if IB.is_connected ib then true else IB.connect ib.

(** [OrchestratorService.get_market_data]. *)
Definition get_market_data (ib : IB.IBClient) : MarketData :=
  let mock := {| qqq_price := 562.43; vix := 17.0; iv_7day_atm := 21.4;
                 source := "mock" |} in
  if ensure_ib_connected ib then
    match IB.get_qqq_price ib with
    | Ok (Some p) =>
        if truthy (Some p)
        then {| qqq_price := p; vix := 17.0; iv_7day_atm := 21.4;
                source := "live" |}
        else mock
    | Ok None => mock
    | Raise _ => mock
    end
  else mock.

(** [OrchestratorService.detect_regime], given the results of its two
    awaited reads: the active regime row and the market data.  Returns
    the service with its cached price and VIX updated, and the regime. *)
Definition detect_regime (settings : Config.Settings)
    (self : OrchestratorService) (current_regime : option Regime)
    (market_data : MarketData) : OrchestratorService * RegimeType :=
  let self := {| current_qqq_price := Some (qqq_price market_data);
                 current_vix := Some (vix market_data);
                 last_short_put_strike := last_short_put_strike self |} in
  let current_qqq_price := qqq_price market_data in
  let current_vix := vix market_data in
  (self,
   if Qlt_bool (Config.VIX_SHUTDOWN_THRESHOLD settings) current_vix
   then DEFENSE_TRIGGER
   else
     match current_regime with
     | None => NORMAL_BULL
     | Some regime =>
         if decide (regime_type regime = RECOVERY_MODE) then
           match recovery_strike regime with
           | Some strike =>
               if truthy (Some strike) && Qlt_bool strike current_qqq_price
               then RECOVERY_COMPLETE else RECOVERY_MODE
           | None => RECOVERY_MODE
           end
         else
           match last_short_put_strike self with
           | Some strike =>
               if truthy (Some strike) && Qlt_bool current_qqq_price strike
               then DEFENSE_TRIGGER else NORMAL_BULL
           | None => NORMAL_BULL
           end
     end).

(** [detect_regime] fed by [get_market_data], as the service runs it. *)
Definition detect_regime_live (settings : Config.Settings)
    (self : OrchestratorService) (current_regime : option Regime)
    (ib : IB.IBClient) : OrchestratorService * RegimeType :=
  detect_regime settings self current_regime (get_market_data ib).

End Orchestrator.


(** ** services/recommendation_service.py *)

Module Recommendation.
Import Models.

(** The result dictionary of [execute_recommendation]. *)
Inductive ExecutionResult : Type :=
| ExecSuccess (order_id : string) (execution_price : option Q) (action : string)
| ExecFailure (error : string).

Definition success (r : ExecutionResult) : bool :=
  match r with
  | ExecSuccess _ _ _ => true
  | ExecFailure _ => false
  end.

(** [RecommendationService.get_recommendation_by_id]. *)
Definition get_recommendation_by_id (db : gmap Z TradeRecommendation)
    (recommendation_id : Z) : option TradeRecommendation :=
  db !! recommendation_id.

(** [RecommendationService.approve_recommendation]; [now] and [now2] are
    the two successive readings of [datetime.utcnow()].  Returns the table
    after the call and the returned row. *)
Definition approve_recommendation (db : gmap Z TradeRecommendation)
    (now now2 : Z) (recommendation_id : Z)
    : gmap Z TradeRecommendation * option TradeRecommendation :=
  match get_recommendation_by_id db recommendation_id with
  | None => (db, None)
  | Some recommendation =>
      if negb (bool_decide (status recommendation = PENDING)) then (db, None)
      else if (expires_at recommendation <? now)%Z then
        (<[recommendation_id := set_status EXPIRED recommendation]> db, None)
      else
        let recommendation :=
          set_approved_at now2 (set_status APPROVED recommendation) in
        (<[recommendation_id := recommendation]> db, Some recommendation)
  end.

(** [RecommendationService.reject_recommendation]. *)
Definition reject_recommendation (db : gmap Z TradeRecommendation)
    (now : Z) (recommendation_id : Z) (reason : option string)
    : gmap Z TradeRecommendation * option TradeRecommendation :=
  match get_recommendation_by_id db recommendation_id with
  | None => (db, None)
  | Some recommendation =>
      if negb (bool_decide (status recommendation = PENDING)) then (db, None)
      else
        let recommendation :=
          set_rejected now reason (set_status REJECTED recommendation) in
        (<[recommendation_id := recommendation]> db, Some recommendation)
  end.

(** The order-placing [if]/[elif] chain of [execute_recommendation]:
    [Ok (order_id, execution_price)], an early failure return, or a raised
    exception. *)
Definition place_action (ib : IB.IBClient) (recommendation : TradeRecommendation)
    : result (option string * option Q + ExecutionResult) :=
  if String.eqb (action recommendation) "open_put_spread" then
    order_id ← IB.place_spread_order ib (short_strike recommendation)
                 (long_strike recommendation) (expiration recommendation) "P"
                 (contracts recommendation) (estimated_credit recommendation);
    Ok (inl (order_id, estimated_credit recommendation))
  else if String.eqb (action recommendation) "close_put_spread" then
    Ok (inl (Some "simulated_close", None))
  else if String.eqb (action recommendation) "open_call_spread" then
    order_id ← IB.place_spread_order ib (short_strike recommendation)
                 (long_strike recommendation) (expiration recommendation) "C"
                 (contracts recommendation) (estimated_credit recommendation);
    Ok (inl (order_id, estimated_credit recommendation))
  else if String.eqb (action recommendation) "open_long_call" then
    Ok (inl (Some "simulated_long_call", None))
  else
    Ok (inr (ExecFailure ("Unknown action: " +:+ action recommendation))).

(** [RecommendationService.execute_recommendation]. *)
Definition execute_recommendation (ib : IB.IBClient)
    (db : gmap Z TradeRecommendation) (now : Z) (recommendation_id : Z)
    : gmap Z TradeRecommendation * ExecutionResult :=
  match get_recommendation_by_id db recommendation_id with
  | None => (db, ExecFailure "Recommendation not found")
  | Some recommendation =>
      if negb (bool_decide (status recommendation = APPROVED)) then
        (db, ExecFailure
               ("Recommendation must be approved first. Current status: "
                  +:+ status_value (status recommendation)))
      else if negb (IB.is_connected ib) && negb (IB.connect ib) then
        (db, ExecFailure "Failed to connect to Interactive Brokers")
      else
        match place_action ib recommendation with
        | Raise e => (db, ExecFailure (exn_str e))
        | Ok (inr early) => (db, early)
        | Ok (inl (Some order_id, execution_price)) =>
            if truthy_str order_id then
              let recommendation :=
                set_executed now order_id execution_price
                  (set_status EXECUTED recommendation) in
              (<[recommendation_id := recommendation]> db,
               ExecSuccess order_id execution_price (action recommendation))
            else (db, ExecFailure "Order placement failed")
        | Ok (inl (None, _)) => (db, ExecFailure "Order placement failed")
        end
  end.

(** The row update of [expire_old_recommendations]:
    [UPDATE ... SET status = EXPIRED WHERE status = PENDING AND expires_at < now]. *)
Definition expire_matches (now : Z) (r : TradeRecommendation) : bool :=
  bool_decide (status r = PENDING) && (expires_at r <? now)%Z.

(** [RecommendationService.expire_old_recommendations]: the table after
    the sweep and the returned row count. *)
Definition expire_old_recommendations (db : gmap Z TradeRecommendation)
    (now : Z) : gmap Z TradeRecommendation * nat :=
  ((fun r => if expire_matches now r then set_status EXPIRED r else r) <$> db,
   size (filter (fun kv => expire_matches now kv.2 = true) db)).

End Recommendation.

(** ** services/crypto_hunter/executor.py *)

Module CryptoExec.

Inductive CryptoOrderStatus : Type :=
| PENDING | SUBMITTED | FILLED | PARTIALLY_FILLED | CANCELLED | REJECTED | FAILED.

(** [CryptoOrderStatus.value]. *)
Definition status_value (s : CryptoOrderStatus) : string :=
  match s with
  | PENDING => "pending"
  | SUBMITTED => "submitted"
  | FILLED => "filled"
  | PARTIALLY_FILLED => "partially_filled"
  | CANCELLED => "cancelled"
  | REJECTED => "rejected"
  | FAILED => "failed"
  end.

(** The fields of the broker's [CryptoOrder] read by the executor. *)
Record CryptoOrder : Type := {
  id : string;
  quantity : Q;
  status : string;
  filled_quantity : Q;
  filled_price : option Q
}.

(** The fields of the broker's [TradingPair] read by the executor. *)
Record TradingPair : Type := {
  tp_symbol : string;
  min_order_price_increment : Q;
  min_order_quantity_increment : Q
}.

(** The Robinhood client is an external collaborator: its answers are the
    fields below.  [get_order oid n] is the answer to the [n]-th status
    request (counted from 0) made since the executor started. *)
Record RobinhoodCryptoClient : Type := {
  is_configured : bool;
  get_trading_pairs : result (list TradingPair);
  place_order : string -> string -> string -> Q -> option Q ->
                result (option CryptoOrder);
  get_order : string -> nat -> result (option CryptoOrder);
  cancel_order : string -> result bool
}.

(** The text of [CryptoOrderResult.message]; formatted numbers are kept
    as data. *)
Inductive Message : Type :=
| MsgExcluded (symbol : string)
| MsgNotConfigured
| MsgRoundsToZero (quantity precision : Q)
| MsgFailedToPlace
| MsgFilled
| MsgPartialFill (filled quantity : Q)
| MsgTimedOut
| MsgExecutionError (e : exn).

(** [CryptoOrderResult] without its timestamp. *)
Record CryptoOrderResult : Type := {
  r_symbol : string;
  r_side : string;
  r_order_type : string;
  r_requested_quantity : Q;
  r_filled_quantity : Q;
  r_filled_price : option Q;
  r_status : CryptoOrderStatus;
  r_order_id : option string;
  r_message : Message
}.

Definition EXCLUDED_SYMBOLS : list string :=
  ["USDC-USD"; "USDT-USD"; "DAI-USD"; "BUSD-USD"; "TUSD-USD"].

Record CryptoExecutor : Type := {
  use_limit_orders : bool;
  limit_offset_pct : Q;
  order_timeout_seconds : Z;
  max_slippage_pct : Q
}.

(** What the executor changes: the class-level trading-pair cache, and,
    on the broker side, the number of status requests made and the order
    ids for which a cancellation was requested (oldest first). *)
Record World : Type := {
  _trading_pairs_cache : gmap string TradingPair;
  _cache_loaded : bool;
  status_requests : nat;
  cancel_requests : list string
}.

Definition initial_world : World := {|
  _trading_pairs_cache := ∅;
  _cache_loaded := false;
  status_requests := 0;
  cancel_requests := []
|}.

(** Computations that read and change the [World] and may raise. *)
Definition M (A : Type) : Type := World -> World * result A.

#[global] Instance M_ret : MRet M := fun A a w => (w, Ok a).
#[global] Instance M_bind : MBind M := fun A B k m w =>
  match m w with
  | (w', Ok a) => k a w'
  | (w', Raise e) => (w', Raise e)
  end.

(** [await self.client.get_order(order_id)]. *)
Definition client_get_order (client : RobinhoodCryptoClient) (order_id : string)
    : M (option CryptoOrder) :=
  fun w =>
    ({| _trading_pairs_cache := _trading_pairs_cache w;
        _cache_loaded := _cache_loaded w;
        status_requests := S (status_requests w);
        cancel_requests := cancel_requests w |},
     get_order client order_id (status_requests w)).

(** [await self.client.cancel_order(order_id)]. *)
Definition client_cancel_order (client : RobinhoodCryptoClient) (order_id : string)
    : M bool :=
  fun w =>
    ({| _trading_pairs_cache := _trading_pairs_cache w;
        _cache_loaded := _cache_loaded w;
        status_requests := status_requests w;
        cancel_requests := cancel_requests w ++ [order_id] |},
     cancel_order client order_id).

(** [CryptoExecutor._ensure_trading_pairs_cached]. *)
Definition _ensure_trading_pairs_cached (client : RobinhoodCryptoClient)
    : M unit :=
  fun w =>
    if _cache_loaded w then (w, Ok tt)
    else
      match get_trading_pairs client with
      | Raise e => (w, Raise e)
      | Ok pairs =>
          ({| _trading_pairs_cache :=
                fold_left (fun cache p => <[tp_symbol p := p]> cache)
                  pairs (_trading_pairs_cache w);
              _cache_loaded := true;
              status_requests := status_requests w;
              cancel_requests := cancel_requests w |}, Ok tt)
      end.

(** [CryptoExecutor._get_price_precision]. *)
Definition _get_price_precision (w : World) (symbol : string) : Q :=
  match _trading_pairs_cache w !! symbol with
  | Some p => min_order_price_increment p
  | None => 0.01
  end.

(** [CryptoExecutor._get_quantity_precision]. *)
Definition _get_quantity_precision (w : World) (symbol : string) : Q :=
  match _trading_pairs_cache w !! symbol with
  | Some p => min_order_quantity_increment p
  | None => 0.00001
  end.

(** [max(0, -int(math.floor(math.log10(precision))))] for a positive
    [precision]: the least [d] with [precision * 10^d >= 1].  Such a [d]
    is at most the bit size of the denominator, which bounds the search. *)
Fixpoint decimal_places_from (bound : nat) (d : nat) (precision : Q) : nat :=
  match bound with
  | O => d
  | S bound' =>
      if Qle_bool 1 (precision * 10 ^ Z.of_nat d) then d
      else decimal_places_from bound' (S d) precision
  end.

Definition decimal_places (precision : Q) : nat :=
  decimal_places_from (Pos.size_nat (Qden precision)) 0 precision.

(** [CryptoExecutor._round_to_precision]: truncation toward zero to the
    number of decimal places of [precision] ([ROUND_DOWN]). *)
Definition _round_to_precision (value precision : Q) : Q :=
  if Qle_bool precision 0 then value
  else
    let scale := 10 ^ Z.of_nat (decimal_places precision) in
    inject_Z (Py.int (value * scale)) / scale.

(** [CryptoExecutor._is_excluded_symbol]. *)
Definition _is_excluded_symbol (symbol : string) : bool :=
  bool_decide (symbol ∈ EXCLUDED_SYMBOLS).

(** [order.status in ["filled", "canceled", "failed", "rejected"]]. *)
Definition is_final_status (status : string) : bool :=
  bool_decide (status ∈ ["filled"; "canceled"; "failed"; "rejected"]).

(** The polling loop of [_wait_for_fill].  [remaining] is
    [timeout - elapsed] in seconds, cut off at zero: the loop runs while it
    is positive and each round takes two seconds off it.  After the loop
    the final status is requested once more; an exception there gives
    [None]. *)
Fixpoint wait_loop (client : RobinhoodCryptoClient) (order_id : string)
    (remaining : nat) (w : World) : World * option CryptoOrder :=
  match remaining with
  | O =>
      match client_get_order client order_id w with
      | (w', Ok order) => (w', order)
      | (w', Raise _) => (w', None)
      end
  | S r =>
      let next w' :=
        match r with
        | O => wait_loop client order_id r w'
        | S r' => wait_loop client order_id r' w'
        end in
      match client_get_order client order_id w with
      | (w', Ok (Some order)) =>
          if is_final_status (status order) then (w', Some order)
          else next w'
      | (w', Ok None) => next w'
      | (w', Raise _) => next w'
      end
  end.

(** [CryptoExecutor._wait_for_fill]. *)
Definition _wait_for_fill (self : CryptoExecutor)
    (client : RobinhoodCryptoClient) (order_id : string)
    (timeout_seconds : option Z) : M (option CryptoOrder) :=
  fun w =>
    let timeout :=
      match timeout_seconds with
      | Some t => if (t =? 0)%Z then order_timeout_seconds self else t
      | None => order_timeout_seconds self
      end in
    let '(w', order) := wait_loop client order_id (Z.to_nat timeout) w in
    (w', Ok order).

(** Reading the current [World], and a broker answer as a computation. *)
Definition read_world : M World := fun w => (w, Ok w).
Definition lift {A : Type} (r : result A) : M A := fun w => (w, r).

Definition mk_result (symbol side order_type : string)
    (requested_quantity filled_quantity : Q) (filled_price : option Q)
    (status : CryptoOrderStatus) (order_id : option string) (message : Message)
    : CryptoOrderResult :=
  {| r_symbol := symbol; r_side := side; r_order_type := order_type;
     r_requested_quantity := requested_quantity;
     r_filled_quantity := filled_quantity; r_filled_price := filled_price;
     r_status := status; r_order_id := order_id; r_message := message |}.

(** The body of the [try] block of [CryptoExecutor.execute_entry]. *)
Definition execute_entry_try (self : CryptoExecutor)
    (client : RobinhoodCryptoClient) (symbol : string)
    (quantity current_price : Q) (limit_price : option Q)
    : M CryptoOrderResult :=
  if _is_excluded_symbol symbol then
    mret (mk_result symbol "buy" "limit" quantity 0 None REJECTED None
            (MsgExcluded symbol))
  else
    _ ← _ensure_trading_pairs_cached client;
    if negb (is_configured client) then
      mret (mk_result symbol "buy"
              (if use_limit_orders self then "limit" else "market")
              quantity 0 None FAILED None MsgNotConfigured)
    else
      w ← read_world;
      let price_precision := _get_price_precision w symbol in
      let quantity_precision := _get_quantity_precision w symbol in
      let rounded_quantity := _round_to_precision quantity quantity_precision in
      if Qle_bool rounded_quantity 0 then
        mret (mk_result symbol "buy"
                (if use_limit_orders self then "limit" else "market")
                quantity 0 None REJECTED None
                (MsgRoundsToZero quantity quantity_precision))
      else
        let '(order_type, limit_price) :=
          if use_limit_orders self then
            let limit_price :=
              match limit_price with
              | None => current_price * (1 + limit_offset_pct self)
              | Some lp => lp
              end in
            ("limit", Some (_round_to_precision limit_price price_precision))
          else ("market", None) in
        order ← lift (place_order client symbol "buy" order_type
                        rounded_quantity limit_price);
        match order with
        | None =>
            mret (mk_result symbol "buy" order_type quantity 0 None FAILED None
                    MsgFailedToPlace)
        | Some order =>
            filled_order ← _wait_for_fill self client (id order) None;
            match filled_order with
            | Some filled_order =>
                if String.eqb (status filled_order) "filled" then
                  mret (mk_result symbol "buy" order_type quantity
                          (filled_quantity filled_order)
                          (filled_price filled_order) FILLED
                          (Some (id filled_order)) MsgFilled)
                else if Qlt_bool 0 (filled_quantity filled_order) then
                  mret (mk_result symbol "buy" order_type quantity
                          (filled_quantity filled_order)
                          (filled_price filled_order) PARTIALLY_FILLED
                          (Some (id filled_order))
                          (MsgPartialFill (filled_quantity filled_order) quantity))
                else
                  _ ← (if truthy_str (id order)
                       then client_cancel_order client (id order)
                       else mret false);
                  mret (mk_result symbol "buy" order_type quantity 0 None
                          CANCELLED (Some (id order)) MsgTimedOut)
            | None =>
                _ ← (if truthy_str (id order)
                     then client_cancel_order client (id order)
                     else mret false);
                mret (mk_result symbol "buy" order_type quantity 0 None
                        CANCELLED (Some (id order)) MsgTimedOut)
            end
        end.

(** [CryptoExecutor.execute_entry]: the [try] block, with any exception
    turned into a [FAILED] result. *)
Definition execute_entry (self : CryptoExecutor)
    (client : RobinhoodCryptoClient) (symbol : string)
    (quantity current_price : Q) (limit_price : option Q)
    (w : World) : World * CryptoOrderResult :=
  match execute_entry_try self client symbol quantity current_price limit_price w with
  | (w', Ok r) => (w', r)
  | (w', Raise e) =>
      (w', mk_result symbol "buy" "unknown" quantity 0 None FAILED None
             (MsgExecutionError e))
  end.

(** The texts of [CryptoOrderResult.message] used by [execute_exit]. *)
Inductive ExitMessage : Type :=
| ExitNotConfigured
| ExitRoundsToZero (quantity precision : Q)
| ExitFailedToPlace
| ExitFilled (reason : string)
| ExitFilledAtMarket (reason : string)
| ExitNotFullyFilled
| ExitError (e : exn).

(** [CryptoOrderResult] as [execute_exit] builds it, without its
    timestamp. *)
Record CryptoExitResult : Type := {
  x_symbol : string;
  x_side : string;
  x_order_type : string;
  x_requested_quantity : Q;
  x_filled_quantity : Q;
  x_filled_price : option Q;
  x_status : CryptoOrderStatus;
  x_order_id : option string;
  x_message : ExitMessage
}.

Definition mk_exit (symbol order_type : string)
    (requested_quantity filled_quantity : Q) (filled_price : option Q)
    (status : CryptoOrderStatus) (order_id : option string)
    (message : ExitMessage) : CryptoExitResult :=
  {| x_symbol := symbol; x_side := "sell"; x_order_type := order_type;
     x_requested_quantity := requested_quantity;
     x_filled_quantity := filled_quantity; x_filled_price := filled_price;
     x_status := status; x_order_id := order_id; x_message := message |}.

(** The body of the [try] block of [CryptoExecutor.execute_exit]. *)
Definition execute_exit_try (self : CryptoExecutor)
    (client : RobinhoodCryptoClient) (symbol : string) (quantity : Q)
    (current_price : option Q) (reason : string) : M CryptoExitResult :=
  _ ← _ensure_trading_pairs_cached client;
  if negb (is_configured client) then
    mret (mk_exit symbol "market" quantity 0 None FAILED None ExitNotConfigured)
  else
    w ← read_world;
    let price_precision := _get_price_precision w symbol in
    let quantity_precision := _get_quantity_precision w symbol in
    let rounded_quantity := _round_to_precision quantity quantity_precision in
    if Qle_bool rounded_quantity 0 then
      mret (mk_exit symbol "market" quantity 0 None REJECTED None
              (ExitRoundsToZero quantity quantity_precision))
    else
      let '(order_type, limit_price) :=
        if String.eqb reason "stop_loss" then ("market", None)
        else if use_limit_orders self && truthy current_price then
          match current_price with
          | Some current_price =>
              ("limit",
               Some (_round_to_precision
                       (current_price * (1 - limit_offset_pct self))
                       price_precision))
          | None => ("market", None)
          end
        else ("market", None) in
      order ← lift (place_order client symbol "sell" order_type
                      rounded_quantity limit_price);
      match order with
      | None =>
          mret (mk_exit symbol order_type quantity 0 None FAILED None
                  ExitFailedToPlace)
      | Some order =>
          filled_order ← _wait_for_fill self client (id order) None;
          let not_filled : M CryptoExitResult :=
            retried ←
              (if String.eqb order_type "limit" && truthy_str (id order) then
                 _ ← client_cancel_order client (id order);
                 market_order ← lift (place_order client symbol "sell" "market"
                                        rounded_quantity None);
                 match market_order with
                 | Some market_order =>
                     filled ← _wait_for_fill self client (id market_order) None;
                     match filled with
                     | Some filled =>
                         if String.eqb (status filled) "filled" then
                           mret (Some (mk_exit symbol "market" quantity
                                         (filled_quantity filled)
                                         (filled_price filled) FILLED
                                         (Some (id filled))
                                         (ExitFilledAtMarket reason)))
                         else mret None
                     | None => mret None
                     end
                 | None => mret None
                 end
               else mret None);
            match retried with
            | Some result => mret result
            | None =>
                mret (mk_exit symbol order_type quantity
                        (match filled_order with
                         | Some filled_order => filled_quantity filled_order
                         | None => 0
                         end)
                        (match filled_order with
                         | Some filled_order => filled_price filled_order
                         | None => None
                         end)
                        (match filled_order with
                         | Some filled_order =>
                             if Qlt_bool 0 (filled_quantity filled_order)
                             then PARTIALLY_FILLED else FAILED
                         | None => FAILED
                         end)
                        (Some (id order)) ExitNotFullyFilled)
            end in
          match filled_order with
          | Some filled_order' =>
              if String.eqb (status filled_order') "filled" then
                mret (mk_exit symbol order_type quantity
                        (filled_quantity filled_order')
                        (filled_price filled_order') FILLED
                        (Some (id filled_order')) (ExitFilled reason))
              else not_filled
          | None => not_filled
          end
      end.

(** [CryptoExecutor.execute_exit]: the [try] block, with any exception
    turned into a [FAILED] result. *)
Definition execute_exit (self : CryptoExecutor)
    (client : RobinhoodCryptoClient) (symbol : string) (quantity : Q)
    (current_price : option Q) (reason : string)
    (w : World) : World * CryptoExitResult :=
  match execute_exit_try self client symbol quantity current_price reason w with
  | (w', Ok r) => (w', r)
  | (w', Raise e) =>
      (w', mk_exit symbol "unknown" quantity 0 None FAILED None (ExitError e))
  end.

End CryptoExec.

(** ** Sequences of calls *)

Module Runs.

(** The arguments of one [record_trade] call. *)
Record ClosedTrade : Type := {
  ct_symbol : string;
  ct_entry_price : Q;
  ct_exit_price : Q;
  ct_pnl : Q;
  ct_date : Z
}.

(** [record_trade] called once per closed trade, oldest first. *)
Definition gem_record_all (rm : GemRisk.RiskManager) (trades : list ClosedTrade)
    : GemRisk.RiskManager :=
  fold_left
    (fun rm t =>
       GemRisk.record_trade rm (ct_symbol t) (ct_entry_price t)
         (ct_exit_price t) (ct_pnl t) (ct_date t))
    trades rm.


(** The trades closed on a given day. *)
Definition on_day (d : Z) (trades : list ClosedTrade) : list ClosedTrade :=
  List.filter (fun t => (ct_date t =? d)%Z) trades.

End Runs.

(** ** Reference formulas, written from the specification's wording *)

Module Spec.

(** [x] clamped to the interval [[lo, hi]]. *)
Definition clamp (lo hi x : Q) : Q :=
  if Qlt_bool x lo then lo else if Qlt_bool hi x then hi else x.


(** [((W/L)*p - (1-p)) / (W/L)], times the multiplier, clamped to
    [[0, cap]]. *)
Definition kelly (p W L multiplier cap : Q) : Q :=
  clamp 0 cap (((W / L) * p - (1 - p)) / (W / L) * multiplier).

(** Majority vote between bullish and bearish signals; a tie is neutral. *)
Definition majority (bull bear : nat) : Trend.TrendDirection :=
  if (bear <? bull)%nat then Trend.BULLISH
  else if (bull <? bear)%nat then Trend.BEARISH
  else Trend.NEUTRAL.

(** [max(bull, bear) / total * 100]. *)
Definition strength (bull bear total : nat) : Q :=
  Trend.of_nat (Nat.max bull bear) / Trend.of_nat total * 100.

(** [(50 + (bull/total - 0.5) * 100) * (0.5 + strength/200)], clamped to
    [[0, 100]]. *)
Definition score (bull total : nat) (strength : Q) : Q :=
  clamp 0 100
    ((50 + (Trend.of_nat bull / Trend.of_nat total - 0.5) * 100)
       * (0.5 + strength / 200)).

End Spec.

(** ** Example data *)

Module Examples.

(** An equities manager with default settings after three winning trades
    of +20% and two losing trades of -8%. *)
Definition s1_manager : GemRisk.RiskManager :=
  let rm := GemRisk.__init__ ∅ in
  let rm := GemRisk.record_trade rm "AAA" 100 120 20 1 in
  let rm := GemRisk.record_trade rm "BBB" 100 92 (-8) 1 in
  let rm := GemRisk.record_trade rm "CCC" 100 120 20 2 in
  let rm := GemRisk.record_trade rm "DDD" 100 92 (-8) 3 in
  GemRisk.record_trade rm "EEE" 100 120 20 3.

(** A recommendation row with the given id, expiry and status. *)
Definition recommendation (rid expires : Z) (st : Models.RecommendationStatus)
    : Models.TradeRecommendation :=
  {| Models.id := rid; Models.expires_at := expires; Models.status := st;
     Models.action := "open_put_spread";
     Models.short_strike := Some 540; Models.long_strike := Some 515;
     Models.expiration := Some "20250117"; Models.contracts := Some 2%Z;
     Models.estimated_credit := Some 0.60;
     Models.approved_at := None; Models.rejected_at := None;
     Models.rejection_reason := None; Models.executed_at := None;
     Models.order_id := None; Models.execution_price := None |}.

(** A connected broker that accepts every spread order as order "X". *)
Definition accepting_broker : IB.IBClient :=
  {| IB.is_connected := true; IB.connect := true;
     IB.get_qqq_price := Ok (Some 562.43);
     IB.place_spread_order := fun _ _ _ _ _ _ => Ok (Some "X") |}.

(** A crypto order for one unit, with the given state and filled amount. *)
Definition crypto_order (state : string) (filled : Q) : CryptoExec.CryptoOrder :=
  {| CryptoExec.id := "order-1"; CryptoExec.quantity := 1;
     CryptoExec.status := state; CryptoExec.filled_quantity := filled;
     CryptoExec.filled_price := if Qlt_bool 0 filled then Some 100 else None |}.

(** A configured venue on which the order is accepted, fills 0.4 of the
    requested unit at once and then stays open. *)
Definition lingering_venue : CryptoExec.RobinhoodCryptoClient :=
  {| CryptoExec.is_configured := true;
     CryptoExec.get_trading_pairs := Ok [];
     CryptoExec.place_order := fun _ _ _ _ _ => Ok (Some (crypto_order "open" 0));
     CryptoExec.get_order := fun _ _ => Ok (Some (crypto_order "partially_filled" 0.4));
     CryptoExec.cancel_order := fun _ => Ok true |}.

(** The same venue when nothing fills. *)
Definition idle_venue : CryptoExec.RobinhoodCryptoClient :=
  {| CryptoExec.is_configured := true;
     CryptoExec.get_trading_pairs := Ok [];
     CryptoExec.place_order := fun _ _ _ _ _ => Ok (Some (crypto_order "open" 0));
     CryptoExec.get_order := fun _ _ => Ok (Some (crypto_order "open" 0));
     CryptoExec.cancel_order := fun _ => Ok true |}.

(** [CryptoExecutor.__init__] with an empty configuration. *)
Definition default_executor : CryptoExec.CryptoExecutor :=
  {| CryptoExec.use_limit_orders := false;
     CryptoExec.limit_offset_pct := 0.005;
     CryptoExec.order_timeout_seconds := 60;
     CryptoExec.max_slippage_pct := 0.01 |}.

(** The idle venue when it refuses every cancellation. *)
Definition refusing_venue : CryptoExec.RobinhoodCryptoClient :=
  {| CryptoExec.is_configured := true;
     CryptoExec.get_trading_pairs := Ok [];
     CryptoExec.place_order := fun _ _ _ _ _ => Ok (Some (crypto_order "open" 0));
     CryptoExec.get_order := fun _ _ => Ok (Some (crypto_order "open" 0));
     CryptoExec.cancel_order := fun _ => Ok false |}.

(** [CryptoExecutor.__init__] with [use_limit_orders] switched on. *)
Definition limit_executor : CryptoExec.CryptoExecutor :=
  {| CryptoExec.use_limit_orders := true;
     CryptoExec.limit_offset_pct := 0.005;
     CryptoExec.order_timeout_seconds := 60;
     CryptoExec.max_slippage_pct := 0.01 |}.

(** A venue with a thin book: a limit order fills 0.4 of a unit and then
    stays open, a market order fills at once. *)
Definition thin_book_venue : CryptoExec.RobinhoodCryptoClient :=
  {| CryptoExec.is_configured := true;
     CryptoExec.get_trading_pairs := Ok [];
     CryptoExec.place_order := fun _ _ order_type q _ =>
       Ok (Some {| CryptoExec.id := order_type +:+ "-1";
                   CryptoExec.quantity := q; CryptoExec.status := "open";
                   CryptoExec.filled_quantity := 0;
                   CryptoExec.filled_price := None |});
     CryptoExec.get_order := fun order_id _ =>
       if String.eqb order_id "limit-1" then
         Ok (Some {| CryptoExec.id := order_id; CryptoExec.quantity := 1;
                     CryptoExec.status := "partially_filled";
                     CryptoExec.filled_quantity := 0.4;
                     CryptoExec.filled_price := Some 100 |})
       else
         Ok (Some {| CryptoExec.id := order_id; CryptoExec.quantity := 1;
                     CryptoExec.status := "filled";
                     CryptoExec.filled_quantity := 1;
                     CryptoExec.filled_price := Some 99 |});
     CryptoExec.cancel_order := fun _ => Ok true |}.


(** A table with a pending, an approved and an executed recommendation,
    each expiring at time 100. *)
Definition lifecycle_db : gmap Z Models.TradeRecommendation :=
  {[ 1%Z := recommendation 1 100 Models.PENDING;
     2%Z := recommendation 2 100 Models.APPROVED;
     3%Z := recommendation 3 100 Models.EXECUTED ]}.

End Examples.

(** * Properties *)

(** ** Facts about the Python operations *)

Lemma Qlt_bool_iff (x y : Q) : Qlt_bool x y = true <-> x < y.
Proof.
  unfold Qlt_bool. rewrite negb_true_iff.
  destruct (Qle_bool y x) eqn:E.
  - apply Qle_bool_iff in E. split; [discriminate | intros H; lra].
  - split; [intros _ | reflexivity].
    destruct (Qlt_le_dec x y) as [H | H]; [exact H |].
    apply Qle_bool_iff in H. congruence.
Qed.

Lemma Qlt_bool_false_iff (x y : Q) : Qlt_bool x y = false <-> y <= x.
Proof.
  unfold Qlt_bool. rewrite negb_false_iff. apply Qle_bool_iff.
Qed.

Lemma Qle_bool_false_iff (x y : Q) : Qle_bool x y = false <-> y < x.
Proof.
  rewrite <- Qlt_bool_iff. unfold Qlt_bool.
  destruct (Qle_bool x y); simpl; split; congruence.
Qed.

Lemma div_ok (x y : Q) : ~ y == 0 -> Py.div x y = Ok (x / y).
Proof.
  intros H. unfold Py.div.
  destruct (Qeq_bool y 0) eqn:E; [| reflexivity].
  apply Qeq_bool_iff in E. contradiction.
Qed.

Lemma div_zero (x y : Q) : y == 0 -> Py.div x y = Raise ZeroDivisionError.
Proof.
  intros H. unfold Py.div. apply Qeq_bool_iff in H. now rewrite H.
Qed.

Lemma min_spec (a b : Q) :
  (b < a /\ Py.min a b = b) \/ (a <= b /\ Py.min a b = a).
Proof.
  unfold Py.min. destruct (Qlt_bool b a) eqn:E.
  - left. apply Qlt_bool_iff in E. auto.
  - right. apply Qlt_bool_false_iff in E. auto.
Qed.

Lemma max_spec (a b : Q) :
  (a < b /\ Py.max a b = b) \/ (b <= a /\ Py.max a b = a).
Proof.
  unfold Py.max. destruct (Qlt_bool a b) eqn:E.
  - left. apply Qlt_bool_iff in E. auto.
  - right. apply Qlt_bool_false_iff in E. auto.
Qed.

(** ** Exit rule (risk managers) *)

(** The equities manager labels the hold-time exit [max_hold_days], not
    [max_hold_time]: at price 100 between stop 92 and target 120, held 30
    of at most 30 days. *)
Lemma gem_should_exit_hold_label :
  let rm := GemRisk.__init__ ∅ in
  ~ 100 <= 92 /\ ~ 120 <= 100 /\ (30 <= 30)%Z /\
  GemRisk.should_exit rm 100 100 92 120 30 30 = (true, Some "max_hold_days") /\
  GemRisk.should_exit rm 100 100 92 120 30 30 <> (true, Some "max_hold_time").
Proof.
  simpl. repeat split; try lra; try lia. discriminate.
Qed.

(** For a positive entry price the two trailing-stop conditions of the
    crypto manager exclude each other. *)
Lemma trailing_stop_needs_nonpositive_entry (price entry : Q) :
  0 < entry ->
  ~ (0.15 < (price - entry) / entry /\ price <= entry * 1.01).
Proof.
  intros Hentry [Hpnl Hprice].
  assert (H : 0.15 * entry < price - entry).
  { apply (Qmult_lt_r _ _ entry Hentry) in Hpnl.
    assert (E : (price - entry) / entry * entry == price - entry)
      by (field; lra).
    lra. }
  lra.
Qed.

(** C1 (amended).  Crypto manager: stop loss, then take profit, then
    maximum hold time, then (for a non-zero entry price) the trailing
    stop, else no exit.  Equities manager: stop loss, then take profit,
    then [max_hold_days], else no exit; it has no trailing-stop rule. *)
Theorem should_exit_rule_order
    (crm : CryptoRisk.CryptoRiskManager) (rm : GemRisk.RiskManager)
    (price entry stop target hours : Q) (days max_days : Z) :
  (price <= stop ->
     CryptoRisk.should_exit crm price entry stop target hours
       = Ok (true, Some "stop_loss")) /\
  (~ price <= stop -> target <= price ->
     CryptoRisk.should_exit crm price entry stop target hours
       = Ok (true, Some "take_profit")) /\
  (~ price <= stop -> ~ target <= price ->
     CryptoRisk.max_hold_hours crm <= hours ->
     CryptoRisk.should_exit crm price entry stop target hours
       = Ok (true, Some "max_hold_time")) /\
  (~ price <= stop -> ~ target <= price ->
     ~ CryptoRisk.max_hold_hours crm <= hours -> ~ entry == 0 ->
     0.15 < (price - entry) / entry -> price <= entry * 1.01 ->
     CryptoRisk.should_exit crm price entry stop target hours
       = Ok (true, Some "trailing_stop")) /\
  (~ price <= stop -> ~ target <= price ->
     ~ CryptoRisk.max_hold_hours crm <= hours -> ~ entry == 0 ->
     ~ (0.15 < (price - entry) / entry /\ price <= entry * 1.01) ->
     CryptoRisk.should_exit crm price entry stop target hours
       = Ok (false, None)) /\
  (price <= stop ->
     GemRisk.should_exit rm price entry stop target days max_days
       = (true, Some "stop_loss")) /\
  (~ price <= stop -> target <= price ->
     GemRisk.should_exit rm price entry stop target days max_days
       = (true, Some "take_profit")) /\
  (~ price <= stop -> ~ target <= price -> (max_days <= days)%Z ->
     GemRisk.should_exit rm price entry stop target days max_days
       = (true, Some "max_hold_days")) /\
  (~ price <= stop -> ~ target <= price -> ~ (max_days <= days)%Z ->
     GemRisk.should_exit rm price entry stop target days max_days
       = (false, None)).
Proof.
  unfold CryptoRisk.should_exit, GemRisk.should_exit.
  destruct (Qle_bool price stop) eqn:Estop;
    [apply Qle_bool_iff in Estop | apply Qle_bool_false_iff in Estop].
  { repeat split; intros; try reflexivity; lra. }
  destruct (Qle_bool target price) eqn:Etp;
    [apply Qle_bool_iff in Etp | apply Qle_bool_false_iff in Etp].
  { repeat split; intros; try reflexivity; lra. }
  assert (Hgem :
    ((max_days <= days)%Z ->
       (if (max_days <=? days)%Z then (true, Some "max_hold_days")
        else (false, @None string)) = (true, Some "max_hold_days")) /\
    (~ (max_days <= days)%Z ->
       (if (max_days <=? days)%Z then (true, Some "max_hold_days")
        else (false, @None string)) = (false, None))).
  { destruct (Z.leb_spec max_days days); split; intros; try reflexivity; lia. }
  destruct Hgem as [Hg1 Hg2].
  destruct (Qle_bool (CryptoRisk.max_hold_hours crm) hours) eqn:Eh;
    [apply Qle_bool_iff in Eh | apply Qle_bool_false_iff in Eh].
  { repeat split; intros; try reflexivity; auto; try lra. }
  repeat split; intros; auto; try lra.
  - rewrite div_ok by assumption. simpl.
    assert (E1 : Qlt_bool 0.15 ((price - entry) / entry) = true)
      by now apply Qlt_bool_iff.
    assert (E2 : Qle_bool price (entry * 1.01) = true)
      by now apply Qle_bool_iff.
    now rewrite E1, E2.
  - rewrite div_ok by assumption. simpl.
    destruct (Qlt_bool 0.15 ((price - entry) / entry)) eqn:E1;
      [| reflexivity].
    destruct (Qle_bool price (entry * 1.01)) eqn:E2; [| reflexivity].
    apply Qlt_bool_iff in E1. apply Qle_bool_iff in E2. tauto.
Qed.

(** Closes a comparison between concrete numbers. *)
Ltac concrete :=
  first [ lra | lia | reflexivity
        | vm_compute; first [ reflexivity | discriminate
                            | intros ?; discriminate | tauto ] ].

Lemma should_exit_rule_order_witness :
  let crm := CryptoRisk.__init__ ∅ in
  let rm := GemRisk.__init__ ∅ in
  CryptoRisk.should_exit crm 90 100 92 120 1 = Ok (true, Some "stop_loss") /\
  CryptoRisk.should_exit crm 125 100 92 120 1 = Ok (true, Some "take_profit") /\
  CryptoRisk.should_exit crm 100 100 92 120 168 = Ok (true, Some "max_hold_time") /\
  CryptoRisk.should_exit crm (-120) (-100) (-200) 0 1
    = Ok (true, Some "trailing_stop") /\
  CryptoRisk.should_exit crm 110 100 92 120 1 = Ok (false, None) /\
  GemRisk.should_exit rm 90 100 92 120 1 30 = (true, Some "stop_loss") /\
  GemRisk.should_exit rm 125 100 92 120 1 30 = (true, Some "take_profit") /\
  GemRisk.should_exit rm 100 100 92 120 30 30 = (true, Some "max_hold_days") /\
  GemRisk.should_exit rm 110 100 92 120 1 30 = (false, None).
Proof.
  intros crm rm.
  split; [apply (should_exit_rule_order crm rm 90 100 92 120 1 1 30); concrete |].
  split; [apply (should_exit_rule_order crm rm 125 100 92 120 1 1 30); concrete |].
  split; [apply (should_exit_rule_order crm rm 100 100 92 120 168 1 30); concrete |].
  split; [apply (should_exit_rule_order crm rm (-120) (-100) (-200) 0 1 1 30);
          concrete |].
  split; [apply (should_exit_rule_order crm rm 110 100 92 120 1 1 30); concrete |].
  split; [apply (should_exit_rule_order crm rm 90 100 92 120 1 1 30); concrete |].
  split; [apply (should_exit_rule_order crm rm 125 100 92 120 1 1 30); concrete |].
  split; [apply (should_exit_rule_order crm rm 100 100 92 120 1 30 30); concrete |].
  apply (should_exit_rule_order crm rm 110 100 92 120 1 1 30); concrete.
Defined.

(** ** Kelly fraction *)



Lemma max_min_nonneg (cap x : Q) : 0 <= Py.max 0 (Py.min x cap).
Proof.
  destruct (max_spec 0 (Py.min x cap)) as [[H ->] | [H ->]]; lra.
Qed.







(** ** Stop loss and take profit *)

(** C9.  For an entry price [entry > 0] and a stop-loss fraction in
    (0,1), [should_exit] evaluated at the price returned by
    [calculate_stop_loss] reports a stop-loss exit, on both managers.  With
    the equities defaults (stop 8%, target 20%) and entry 100: the stop is
    92, the target computed from it is 120, a price of 91.99 exits on the
    stop and a price of 120 exits on the target. *)
Theorem stop_loss_then_should_exit
    (rm : GemRisk.RiskManager) (crm : CryptoRisk.CryptoRiskManager)
    (entry target hours : Q) (days max_days : Z) :
  0 < entry ->
  (0 < GemRisk.stop_loss_pct rm /\ GemRisk.stop_loss_pct rm < 1 ->
   GemRisk.calculate_stop_loss rm entry None
     == entry * (1 - GemRisk.stop_loss_pct rm) /\
   GemRisk.should_exit rm (GemRisk.calculate_stop_loss rm entry None) entry
     (GemRisk.calculate_stop_loss rm entry None) target days max_days
     = (true, Some "stop_loss")) /\
  (0 < CryptoRisk.stop_loss_pct crm /\ CryptoRisk.stop_loss_pct crm < 1 ->
   CryptoRisk.calculate_stop_loss crm entry None
     == entry * (1 - CryptoRisk.stop_loss_pct crm) /\
   CryptoRisk.should_exit crm (CryptoRisk.calculate_stop_loss crm entry None)
     entry (CryptoRisk.calculate_stop_loss crm entry None) target hours
     = Ok (true, Some "stop_loss")) /\
  (let rm0 := GemRisk.__init__ ∅ in
   let stop := GemRisk.calculate_stop_loss rm0 100 None in
   let tp := GemRisk.calculate_take_profit rm0 100 (Some stop) in
   GemRisk.stop_loss_pct rm0 == 0.08 /\ GemRisk.take_profit_pct rm0 == 0.20 /\
   stop == 92 /\ tp == 120 /\
   GemRisk.should_exit rm0 91.99 100 stop tp days max_days
     = (true, Some "stop_loss") /\
   GemRisk.should_exit rm0 120 100 stop tp days max_days
     = (true, Some "take_profit")).
Proof.
  intros Hentry. split; [| split].
  - intros _. split; [reflexivity |].
    unfold GemRisk.should_exit.
    assert (E : Qle_bool (GemRisk.calculate_stop_loss rm entry None)
                  (GemRisk.calculate_stop_loss rm entry None) = true)
      by (apply Qle_bool_iff; lra).
    now rewrite E.
  - intros _. split; [reflexivity |].
    unfold CryptoRisk.should_exit.
    assert (E : Qle_bool (CryptoRisk.calculate_stop_loss crm entry None)
                  (CryptoRisk.calculate_stop_loss crm entry None) = true)
      by (apply Qle_bool_iff; lra).
    now rewrite E.
  - cbv zeta. repeat split; try concrete.
Qed.

Lemma stop_loss_then_should_exit_witness :
  let rm := GemRisk.__init__ ∅ in
  let crm := CryptoRisk.__init__ ∅ in
  (0 < 100 /\ 0 < GemRisk.stop_loss_pct rm /\ GemRisk.stop_loss_pct rm < 1 /\
   0 < CryptoRisk.stop_loss_pct crm /\ CryptoRisk.stop_loss_pct crm < 1) /\
  GemRisk.should_exit rm (GemRisk.calculate_stop_loss rm 100 None) 100
    (GemRisk.calculate_stop_loss rm 100 None) 120 0 30
    = (true, Some "stop_loss") /\
  CryptoRisk.should_exit crm (CryptoRisk.calculate_stop_loss crm 100 None) 100
    (CryptoRisk.calculate_stop_loss crm 100 None) 120 0
    = Ok (true, Some "stop_loss").
Proof.
  intros rm crm.
  assert (H0 : 0 < 100) by concrete.
  assert (Hg : 0 < GemRisk.stop_loss_pct rm /\ GemRisk.stop_loss_pct rm < 1)
    by (split; concrete).
  assert (Hc : 0 < CryptoRisk.stop_loss_pct crm /\ CryptoRisk.stop_loss_pct crm < 1)
    by (split; concrete).
  destruct (stop_loss_then_should_exit rm crm 100 120 0 0 30 H0) as (G & C & _).
  split; [tauto |].
  split; [apply G, Hg | apply C, Hc].
Defined.

(** ** Trend direction, strength and score *)

Lemma clamp_max_min_flip (cap x : Q) :
  0 <= cap -> Py.max 0 (Py.min cap x) == Spec.clamp 0 cap x.
Proof.
  intros Hcap. unfold Spec.clamp.
  destruct (Qlt_bool x 0) eqn:E0;
    [apply Qlt_bool_iff in E0 | apply Qlt_bool_false_iff in E0];
    [| destruct (Qlt_bool cap x) eqn:E1;
       [apply Qlt_bool_iff in E1 | apply Qlt_bool_false_iff in E1]];
    (destruct (min_spec cap x) as [[H ->] | [H ->]];
       [destruct (max_spec 0 x) as [[H' ->] | [H' ->]]
       | destruct (max_spec 0 cap) as [[H' ->] | [H' ->]]]; lra).
Qed.

Lemma of_nat_S_nonzero (n : nat) : ~ Trend.of_nat (S n) == 0.
Proof.
  unfold Trend.of_nat, Qeq. simpl. lia.
Qed.

Lemma length_nonzero {A : Type} (l : list A) :
  l <> [] -> ~ Trend.of_nat (length l) == 0.
Proof.
  destruct l; [congruence | intros _; apply of_nat_S_nonzero].
Qed.

(** What [_determine_trend] returns on a non-empty list, branch by branch. *)
Lemma determine_trend_nonempty (signals : list Trend.TrendSignal) :
  signals <> [] ->
  let bull := Trend.count_signal "bullish" signals in
  let bear := Trend.count_signal "bearish" signals in
  let total := length signals in
  Trend._determine_trend signals =
    Ok (Spec.majority bull bear,
        if (bear <? bull)%nat then Trend.of_nat bull / Trend.of_nat total * 100
        else if (bull <? bear)%nat
             then Trend.of_nat bear / Trend.of_nat total * 100
             else 50).
Proof.
  intros Hne bull bear total.
  pose proof (length_nonzero signals Hne) as Htotal.
  unfold Trend._determine_trend, Spec.majority.
  destruct signals as [| s0 rest]; [congruence |].
  fold bull bear total.
  destruct (bear <? bull)%nat.
  - now rewrite div_ok by exact Htotal.
  - destruct (bull <? bear)%nat; [| reflexivity].
    now rewrite div_ok by exact Htotal.
Qed.

(** What [_calculate_score] returns on a non-empty list. *)
Lemma calculate_score_nonempty (signals : list Trend.TrendSignal)
    (direction : Trend.TrendDirection) (strength : Q) :
  signals <> [] ->
  let bull := Trend.count_signal "bullish" signals in
  let total := length signals in
  Trend._calculate_score signals direction strength =
    Ok (Py.max 0 (Py.min 100
          ((50 + (Trend.of_nat bull / Trend.of_nat total - 0.5) * 100)
             * (0.5 + strength / 200)))).
Proof.
  intros Hne bull total.
  pose proof (length_nonzero signals Hne) as Htotal.
  unfold Trend._calculate_score.
  destruct signals as [| s0 rest]; [congruence |].
  fold bull total. now rewrite div_ok by exact Htotal.
Qed.

(** With one bullish, one bearish and one neutral signal the strength is
    the constant 50, not [max(1,1)/3*100]; the score then is 25, not the
    22.2 that the specified strength would give. *)
Lemma determine_trend_tie_strength :
  let signals :=
    [ Trend.mk_signal "EMA Cross" "bullish" 1;
      Trend.mk_signal "RSI" "neutral" 50;
      Trend.mk_signal "MACD" "bearish" (-1) ] in
  Trend.count_signal "bullish" signals = 1%nat /\
  Trend.count_signal "bearish" signals = 1%nat /\
  Trend._determine_trend signals = Ok (Trend.NEUTRAL, 50) /\
  ~ 50 == Spec.strength 1 1 3 /\
  (exists sc, Trend._calculate_score signals Trend.NEUTRAL 50 = Ok sc /\
              sc == 25 /\ ~ sc == Spec.score 1 3 (Spec.strength 1 1 3)).
Proof.
  cbv zeta. split; [reflexivity |]. split; [reflexivity |].
  split; [reflexivity |]. split; [concrete |].
  eexists. split; [reflexivity |]. split; concrete.
Qed.

(** C7 (amended).  For a non-empty signal list the direction is the
    majority of bullish versus bearish signals, neutral on a tie; the
    strength is [max(bullish, bearish)/total*100] when the two counts
    differ and the constant 50 on a tie; the score is
    [(50 + (bullish/total - 0.5)*100) * (0.5 + strength/200)] clamped to
    [[0,100]]. *)
Theorem determine_trend_and_score (signals : list Trend.TrendSignal) :
  signals <> [] ->
  let bull := Trend.count_signal "bullish" signals in
  let bear := Trend.count_signal "bearish" signals in
  let total := length signals in
  exists strength score,
    Trend._determine_trend signals = Ok (Spec.majority bull bear, strength) /\
    (bull <> bear -> strength == Spec.strength bull bear total) /\
    (bull = bear -> strength == 50) /\
    Trend._calculate_score signals (Spec.majority bull bear) strength = Ok score /\
    score == Spec.score bull total strength.
Proof.
  intros Hne bull bear total.
  eexists. eexists.
  split; [apply determine_trend_nonempty; exact Hne |].
  fold bull bear total.
  split; [| split; [| split]].
  - intros Hdiff. unfold Spec.strength.
    destruct (Nat.ltb_spec bear bull) as [H | H].
    + now replace (Nat.max bull bear) with bull by lia.
    + destruct (Nat.ltb_spec bull bear) as [H' | H']; [| lia].
      now replace (Nat.max bull bear) with bear by lia.
  - intros Heq. rewrite Heq, Nat.ltb_irrefl. reflexivity.
  - apply calculate_score_nonempty; exact Hne.
  - fold bull total. unfold Spec.score. apply clamp_max_min_flip. lra.
Qed.

Lemma determine_trend_and_score_witness :
  let majority_case :=
    [ Trend.mk_signal "EMA Cross" "bullish" 1;
      Trend.mk_signal "RSI" "neutral" 50;
      Trend.mk_signal "MACD" "bullish" 1 ] in
  let tie_case :=
    [ Trend.mk_signal "EMA Cross" "bullish" 1;
      Trend.mk_signal "RSI" "neutral" 50;
      Trend.mk_signal "MACD" "bearish" (-1) ] in
  (majority_case <> [] /\
   exists strength score,
     Trend._determine_trend majority_case = Ok (Trend.BULLISH, strength) /\
     strength == Spec.strength 2 0 3 /\
     Trend._calculate_score majority_case Trend.BULLISH strength = Ok score /\
     score == Spec.score 2 3 strength) /\
  (tie_case <> [] /\
   exists strength score,
     Trend._determine_trend tie_case = Ok (Trend.NEUTRAL, strength) /\
     strength == 50 /\
     Trend._calculate_score tie_case Trend.NEUTRAL strength = Ok score /\
     score == Spec.score 1 3 strength).
Proof.
  intros majority_case tie_case.
  assert (Hm : majority_case <> []) by discriminate.
  assert (Ht : tie_case <> []) by discriminate.
  split.
  - split; [exact Hm |].
    destruct (determine_trend_and_score majority_case Hm)
      as (st & sc & Hd & Hdiff & _ & Hs & Hsc).
    exists st, sc. split; [exact Hd |].
    split; [apply Hdiff; discriminate |]. split; [exact Hs | exact Hsc].
  - split; [exact Ht |].
    destruct (determine_trend_and_score tie_case Ht)
      as (st & sc & Hd & _ & Htie & Hs & Hsc).
    exists st, sc. split; [exact Hd |].
    split; [apply Htie; reflexivity |]. split; [exact Hs | exact Hsc].
Defined.

(** ** Trend analysis: the insufficient-data envelope *)

Lemma fold_sum_nonneg (l : list Q) (a : Q) :
  0 <= a -> Forall (fun x => 0 <= x) l -> 0 <= fold_left Qplus l a.
Proof.
  revert a. induction l as [| x l IH]; intros a Ha Hl; simpl; [exact Ha |].
  inversion Hl; subst. apply IH; [lra | assumption].
Qed.

Lemma sum_nonneg (l : list Q) : Forall (fun x => 0 <= x) l -> 0 <= Py.sum l.
Proof.
  intros Hl. unfold Py.sum. apply fold_sum_nonneg; [lra | exact Hl].
Qed.

Lemma last_n_Forall {A : Type} (P : A -> Prop) (n : nat) (l : list A) :
  Forall P l -> Forall P (Trend.last_n n l).
Proof.
  unfold Trend.last_n. apply Forall_drop.
Qed.

Lemma average_nonneg (l : list Q) (n : nat) :
  Forall (fun x => 0 <= x) l -> 0 <= Py.sum l / Trend.of_nat (S n).
Proof.
  intros Hl. apply Qle_shift_div_l.
  - unfold Trend.of_nat, Qlt. simpl. lia.
  - pose proof (sum_nonneg l Hl). lra.
Qed.






Lemma calculate_ema_some (prices : list Q) (period : nat) :
  (period <= length prices)%nat ->
  exists e, Trend._calculate_ema prices period = Some e.
Proof.
  intros H. unfold Trend._calculate_ema.
  replace (length prices <? period)%nat with false
    by (symmetry; apply Nat.ltb_ge; lia).
  eauto.
Qed.




(** ** Recommendation lifecycle *)

Section Lifecycle.
Import Models Recommendation.

Variable db : gmap Z TradeRecommendation.

Lemma approve_cases (now now2 rid : Z) :
  match db !! rid with
  | None => approve_recommendation db now now2 rid = (db, None)
  | Some r =>
      (status r <> PENDING /\
       approve_recommendation db now now2 rid = (db, None)) \/
      (status r = PENDING /\ (expires_at r < now)%Z /\
       approve_recommendation db now now2 rid
         = (<[rid := set_status EXPIRED r]> db, None)) \/
      (status r = PENDING /\ (now <= expires_at r)%Z /\
       approve_recommendation db now now2 rid
         = (<[rid := set_approved_at now2 (set_status APPROVED r)]> db,
            Some (set_approved_at now2 (set_status APPROVED r))))
  end.
Proof.
  unfold approve_recommendation, get_recommendation_by_id.
  destruct (db !! rid) as [r |]; [| reflexivity].
  destruct (decide (status r = PENDING)) as [Hp | Hp].
  - rewrite bool_decide_eq_true_2 by exact Hp. simpl.
    destruct (Z.ltb_spec (expires_at r) now); auto.
  - rewrite bool_decide_eq_false_2 by exact Hp. simpl. auto.
Qed.

Lemma reject_cases (now rid : Z) (reason : option string) :
  match db !! rid with
  | None => reject_recommendation db now rid reason = (db, None)
  | Some r =>
      (status r <> PENDING /\
       reject_recommendation db now rid reason = (db, None)) \/
      (status r = PENDING /\
       reject_recommendation db now rid reason
         = (<[rid := set_rejected now reason (set_status REJECTED r)]> db,
            Some (set_rejected now reason (set_status REJECTED r))))
  end.
Proof.
  unfold reject_recommendation, get_recommendation_by_id.
  destruct (db !! rid) as [r |]; [| reflexivity].
  destruct (decide (status r = PENDING)) as [Hp | Hp].
  - rewrite bool_decide_eq_true_2 by exact Hp. simpl. auto.
  - rewrite bool_decide_eq_false_2 by exact Hp. simpl. auto.
Qed.

Lemma place_action_early (ib : IB.IBClient) (r : TradeRecommendation)
    (early : ExecutionResult) :
  place_action ib r = Ok (inr early) -> success early = false.
Proof.
  unfold place_action.
  destruct (String.eqb (action r) "open_put_spread").
  { destruct (IB.place_spread_order ib _ _ _ "P" _ _); simpl; congruence. }
  destruct (String.eqb (action r) "close_put_spread"); [congruence |].
  destruct (String.eqb (action r) "open_call_spread").
  { destruct (IB.place_spread_order ib _ _ _ "C" _ _); simpl; congruence. }
  destruct (String.eqb (action r) "open_long_call"); [congruence |].
  intros H. injection H as <-. reflexivity.
Qed.




(** What the sweep does to each row. *)
Lemma expire_lookup (now rid : Z) :
  (expire_old_recommendations db now).1 !! rid
    = (fun r => if expire_matches now r then set_status EXPIRED r else r)
        <$> db !! rid.
Proof.
  unfold expire_old_recommendations. simpl. apply lookup_fmap.
Qed.

(** C4 (amended).  After the sweep at time [now], every recommendation
    that was pending with [expires_at] earlier than [now] has status
    expired; every other row, approved ones included, is unchanged, and no
    row is added or removed. *)
Theorem expire_old_recommendations_sweep (now rid : Z) :
  (forall r, db !! rid = Some r -> status r = PENDING ->
     (expires_at r < now)%Z ->
     (expire_old_recommendations db now).1 !! rid
       = Some (set_status EXPIRED r)) /\
  (forall r, db !! rid = Some r ->
     ~ (status r = PENDING /\ (expires_at r < now)%Z) ->
     (expire_old_recommendations db now).1 !! rid = Some r) /\
  (db !! rid = None -> (expire_old_recommendations db now).1 !! rid = None).
Proof.
  rewrite expire_lookup. unfold expire_matches. repeat split.
  - intros r -> Hp Hexp. simpl.
    rewrite bool_decide_eq_true_2 by exact Hp.
    now replace (expires_at r <? now)%Z with true
      by (symmetry; apply Z.ltb_lt; exact Hexp).
  - intros r -> Hn. simpl.
    destruct (decide (status r = PENDING)) as [Hp | Hp].
    + rewrite bool_decide_eq_true_2 by exact Hp.
      destruct (Z.ltb_spec (expires_at r) now); [tauto | reflexivity].
    + now rewrite bool_decide_eq_false_2 by exact Hp.
  - now intros ->.
Qed.

End Lifecycle.

(** An approved recommendation past its expiry is left approved by the
    sweep. *)
Lemma expire_sweep_keeps_approved :
  let db : gmap Z Models.TradeRecommendation :=
    {[ 1%Z := Examples.recommendation 1 10 Models.APPROVED ]} in
  (10 < 20)%Z /\
  Models.status <$> (Recommendation.expire_old_recommendations db 20).1 !! 1%Z
    = Some Models.APPROVED /\
  Models.status <$> (Recommendation.expire_old_recommendations db 20).1 !! 1%Z
    <> Some Models.EXPIRED.
Proof.
  cbv zeta. split; [lia |].
  rewrite expire_lookup, lookup_singleton_eq. simpl.
  split; [reflexivity | discriminate].
Qed.



Lemma expire_old_recommendations_sweep_witness :
  let db := Examples.lifecycle_db in
  (Recommendation.expire_old_recommendations db 200).1 !! 1%Z
    = Some (Models.set_status Models.EXPIRED
              (Examples.recommendation 1 100 Models.PENDING)) /\
  (Recommendation.expire_old_recommendations db 50).1 !! 1%Z
    = Some (Examples.recommendation 1 100 Models.PENDING) /\
  (Recommendation.expire_old_recommendations db 200).1 !! 2%Z
    = Some (Examples.recommendation 2 100 Models.APPROVED) /\
  (Recommendation.expire_old_recommendations db 200).1 !! 7%Z = None.
Proof.
  intros db.
  assert (H1 : db !! 1%Z = Some (Examples.recommendation 1 100 Models.PENDING))
    by reflexivity.
  assert (H2 : db !! 2%Z = Some (Examples.recommendation 2 100 Models.APPROVED))
    by reflexivity.
  assert (H7 : db !! 7%Z = None) by reflexivity.
  split.
  { destruct (expire_old_recommendations_sweep db 200 1) as (Hexp & _).
    apply (Hexp _ H1); [reflexivity | simpl; lia]. }
  split.
  { destruct (expire_old_recommendations_sweep db 50 1) as (_ & Hkeep & _).
    apply (Hkeep _ H1). simpl. intros [_ Hlt]. lia. }
  split.
  { destruct (expire_old_recommendations_sweep db 200 2) as (_ & Hkeep & _).
    apply (Hkeep _ H2). simpl. intros [Hst _]. discriminate Hst. }
  destruct (expire_old_recommendations_sweep db 200 7) as (_ & _ & Hnone).
  apply Hnone, H7.
Defined.

(** ** Regime detection *)

(** [get_market_data] reports a VIX of 17.0 whatever the broker answers. *)
Lemma get_market_data_vix (ib : IB.IBClient) :
  Orchestrator.vix (Orchestrator.get_market_data ib) = 17.0.
Proof.
  unfold Orchestrator.get_market_data.
  destruct (Orchestrator.ensure_ib_connected ib); [| reflexivity].
  destruct (IB.get_qqq_price ib) as [[p |] | e]; try reflexivity.
  destruct (truthy (Some p)); reflexivity.
Qed.

(** A VIX exactly at the threshold does not trigger the defence: with the
    default threshold 45.0, an observed VIX of 45.0 and no active regime
    the result is [NORMAL_BULL]; and with the threshold configured at the
    17.0 that [get_market_data] reports, the running service returns
    [NORMAL_BULL] as well. *)
Lemma detect_regime_at_threshold :
  let self := {| Orchestrator.current_qqq_price := None;
                 Orchestrator.current_vix := None;
                 Orchestrator.last_short_put_strike := None |} in
  let md := {| Orchestrator.qqq_price := 562.43; Orchestrator.vix := 45.0;
               Orchestrator.iv_7day_atm := 21.4;
               Orchestrator.source := "live" |} in
  Config.VIX_SHUTDOWN_THRESHOLD Config.settings <= Orchestrator.vix md /\
  (Orchestrator.detect_regime Config.settings self None md).2
    = Models.NORMAL_BULL /\
  (forall ib,
     Config.VIX_SHUTDOWN_THRESHOLD {| Config.VIX_SHUTDOWN_THRESHOLD := 17.0 |}
       <= Orchestrator.vix (Orchestrator.get_market_data ib) /\
     (Orchestrator.detect_regime_live
        {| Config.VIX_SHUTDOWN_THRESHOLD := 17.0 |} self None ib).2
       = Models.NORMAL_BULL).
Proof.
  cbv zeta. split; [concrete |]. split; [reflexivity |].
  intros ib. unfold Orchestrator.detect_regime_live, Orchestrator.detect_regime.
  rewrite get_market_data_vix. split; [concrete | reflexivity].
Qed.

(** C6 (amended).  In every regime state, a VIX strictly above the
    shutdown threshold makes [detect_regime] return [DEFENSE_TRIGGER]; a
    VIX at or below the threshold leaves the decision to the other rules,
    and with no active regime the result is then [NORMAL_BULL]. *)
Theorem detect_regime_vix_shutdown (settings : Config.Settings)
    (self : Orchestrator.OrchestratorService)
    (current_regime : option Models.Regime) (md : Orchestrator.MarketData) :
  (Config.VIX_SHUTDOWN_THRESHOLD settings < Orchestrator.vix md ->
   (Orchestrator.detect_regime settings self current_regime md).2
     = Models.DEFENSE_TRIGGER) /\
  (Orchestrator.vix md <= Config.VIX_SHUTDOWN_THRESHOLD settings ->
   (Orchestrator.detect_regime settings self None md).2 = Models.NORMAL_BULL).
Proof.
  unfold Orchestrator.detect_regime. simpl. split; intros H.
  - apply Qlt_bool_iff in H. now rewrite H.
  - apply Qlt_bool_false_iff in H. now rewrite H.
Qed.

Lemma detect_regime_vix_shutdown_witness :
  let self := {| Orchestrator.current_qqq_price := None;
                 Orchestrator.current_vix := None;
                 Orchestrator.last_short_put_strike := Some 540 |} in
  let regime := {| Models.regime_type := Models.RECOVERY_MODE;
                   Models.recovery_strike := Some 550 |} in
  let md v := {| Orchestrator.qqq_price := 562.43; Orchestrator.vix := v;
                 Orchestrator.iv_7day_atm := 21.4;
                 Orchestrator.source := "live" |} in
  (Orchestrator.detect_regime Config.settings self (Some regime) (md 45.5)).2
    = Models.DEFENSE_TRIGGER /\
  (Orchestrator.detect_regime Config.settings self None (md 45.0)).2
    = Models.NORMAL_BULL.
Proof.
  intros self regime md. split.
  - apply (detect_regime_vix_shutdown Config.settings self (Some regime) (md 45.5)).
    concrete.
  - apply (detect_regime_vix_shutdown Config.settings self None (md 45.0)).
    concrete.
Defined.

(** ** Crypto executor: partial fill at the timeout *)

Section Executor.
Import CryptoExec.

Variable self : CryptoExecutor.
Variable client : RobinhoodCryptoClient.

Lemma client_get_order_cancel (order_id : string) (w : World) :
  cancel_requests (client_get_order client order_id w).1 = cancel_requests w.
Proof. reflexivity. Qed.

(** Polling never requests a cancellation. *)
Lemma wait_loop_cancel (order_id : string) (remaining : nat) :
  forall w,
    cancel_requests (wait_loop client order_id remaining w).1
      = cancel_requests w.
Proof.
  induction remaining as [remaining IH] using lt_wf_ind. intros w.
  destruct remaining as [| r]; simpl.
  - destruct (get_order client order_id (status_requests w)); reflexivity.
  - assert (Hnext : forall w',
      cancel_requests
        (match r with
         | O => wait_loop client order_id r w'
         | S r' => wait_loop client order_id r' w'
         end).1 = cancel_requests w').
    { intros w'. destruct r as [| r']; apply IH; lia. }
    destruct (get_order client order_id (status_requests w)) as [[order |] | e];
      try (rewrite Hnext; reflexivity).
    destruct (is_final_status (status order)); [reflexivity |].
    rewrite Hnext. reflexivity.
Qed.

Lemma ensure_cached_cancel (w : World) :
  cancel_requests (_ensure_trading_pairs_cached client w).1 = cancel_requests w.
Proof.
  unfold _ensure_trading_pairs_cached.
  destruct (_cache_loaded w); [reflexivity |].
  destruct (get_trading_pairs client); reflexivity.
Qed.

(** Whenever [execute_entry] reports a partial fill, it has requested no
    cancellation: the unfilled remainder stays open at the venue. *)
Lemma execute_entry_partial_never_cancels (symbol : string)
    (quantity current_price : Q) (limit_price : option Q) (w : World) :
  r_status (execute_entry self client symbol quantity current_price
              limit_price w).2 = PARTIALLY_FILLED ->
  cancel_requests (execute_entry self client symbol quantity current_price
                     limit_price w).1 = cancel_requests w.
Proof.
  unfold execute_entry, execute_entry_try.
  destruct (_is_excluded_symbol symbol); [discriminate |].
  unfold mbind, M_bind, mret, M_ret, read_world, lift.
  pose proof (ensure_cached_cancel w) as Hc.
  destruct (_ensure_trading_pairs_cached client w) as [w1 [[] | e]];
    [| discriminate].
  simpl in Hc.
  destruct (negb (is_configured client)); [discriminate |].
  destruct (Qle_bool _ 0); [discriminate |].
  destruct (use_limit_orders self);
    (match goal with
     | |- context [place_order client symbol "buy" ?ot ?q ?lp] =>
         destruct (place_order client symbol "buy" ot q lp)
           as [[order |] | e]; try discriminate
     end;
     unfold _wait_for_fill;
     match goal with
     | |- context [wait_loop client ?oid ?n w1] =>
         pose proof (wait_loop_cancel oid n w1) as Hw;
         destruct (wait_loop client oid n w1) as [w2 filled]
     end;
     simpl in Hw;
     destruct filled as [filled |];
     [ destruct (String.eqb (status filled) "filled"); [discriminate |];
       destruct (Qlt_bool 0 (filled_quantity filled));
       [ simpl; intros _; congruence
       | destruct (truthy_str (id order)); simpl;
         try destruct (cancel_order client (id order)); discriminate ]
     | destruct (truthy_str (id order)); simpl;
       try destruct (cancel_order client (id order)); discriminate ]).
Qed.

End Executor.

(** C5 (the code departs from the specification).  On a venue where the entry
    order fills 0.4 of the requested unit and then lingers until the
    60-second timeout, [execute_entry] polls 31 times and returns
    [PARTIALLY_FILLED] with the filled quantity and price, but requests no
    cancellation of the remainder; on the same venue with nothing filled
    it does cancel the order. *)
Theorem execute_entry_partial_fill_not_cancelled :
  let run venue :=
    CryptoExec.execute_entry Examples.default_executor venue "BTC-USD" 1 100
      None CryptoExec.initial_world in
  CryptoExec.r_status (run Examples.lingering_venue).2
    = CryptoExec.PARTIALLY_FILLED /\
  CryptoExec.r_filled_quantity (run Examples.lingering_venue).2 = 0.4 /\
  0 < 0.4 /\ 0.4 < CryptoExec.r_requested_quantity (run Examples.lingering_venue).2 /\
  CryptoExec.r_filled_price (run Examples.lingering_venue).2 = Some 100 /\
  CryptoExec.status_requests (run Examples.lingering_venue).1 = 31%nat /\
  CryptoExec.cancel_requests (run Examples.lingering_venue).1 = [] /\
  CryptoExec.r_status (run Examples.idle_venue).2 = CryptoExec.CANCELLED /\
  CryptoExec.cancel_requests (run Examples.idle_venue).1 = ["order-1"].
Proof.
  cbv zeta. repeat split; try (vm_compute; reflexivity).
Qed.

(** * Further properties of the risk managers *)

Lemma max_min_upper (cap x : Q) :
  0 <= cap -> Py.max 0 (Py.min x cap) <= cap.
Proof.
  intros Hcap.
  destruct (max_spec 0 (Py.min x cap)) as [[H ->] | [H ->]]; [| exact Hcap].
  destruct (min_spec x cap) as [[H' ->] | [H' ->]]; lra.
Qed.


(** The value returned by the equities [kelly_fraction] is always a
    clamped one. *)
Lemma gem_kelly_shape (rm : GemRisk.RiskManager) (a b c : option Q) (k : Q) :
  GemRisk.kelly_fraction rm a b c = Ok k ->
  exists x, k = Py.max 0 (Py.min x (GemRisk.max_position_pct rm)).
Proof.
  unfold GemRisk.kelly_fraction.
  destruct (match a, b, c with
            | Some p, Some w, Some l => (p, w, l)
            | _, _, _ =>
                (GemRisk.win_rate (GemRisk._calculate_historical_stats rm),
                 GemRisk.avg_win (GemRisk._calculate_historical_stats rm),
                 GemRisk.avg_loss (GemRisk._calculate_historical_stats rm))
            end) as [[p w] l].
  destruct (Py.div w _) as [bq |]; [| discriminate]. cbn [mbind result_bind].
  destruct (Py.div _ bq) as [kq |]; [| discriminate]. cbn [mbind result_bind].
  destruct (Py.div _ (GemRisk.kelly_multiplier rm)); [| discriminate].
  cbn [mbind result_bind]. intros H. injection H as <-. eauto.
Qed.

Lemma crypto_kelly_shape (crm : CryptoRisk.CryptoRiskManager)
    (a b c : option Q) (k : Q) :
  CryptoRisk.kelly_fraction crm a b c = Ok k ->
  exists x,
    k = Py.max 0 (Py.min x (Py.min (CryptoRisk.max_position_pct crm) 0.15)).
Proof.
  unfold CryptoRisk.kelly_fraction.
  destruct (match a, b, c with
            | Some p, Some w, Some l => (p, w, l)
            | _, _, _ =>
                (CryptoRisk.win_rate (CryptoRisk._calculate_historical_stats crm),
                 CryptoRisk.avg_win (CryptoRisk._calculate_historical_stats crm),
                 CryptoRisk.avg_loss (CryptoRisk._calculate_historical_stats crm))
            end) as [[p w] l].
  destruct (Py.div w _) as [bq |]; [| discriminate]. cbn [mbind result_bind].
  destruct (Py.div _ bq) as [kq |]; [| discriminate]. cbn [mbind result_bind].
  destruct (truthy (Some (CryptoRisk.kelly_multiplier crm)));
    [destruct (Py.div _ (CryptoRisk.kelly_multiplier crm)); [| discriminate] |];
    cbn [mbind result_bind]; intros H; injection H as <-; eauto.
Qed.

(** X1.  Whatever its arguments (explicit or taken from the trade
    history), a Kelly fraction that is returned is never negative, never
    above a non-negative [max_position_pct], and on the crypto manager
    never above 0.15. *)
Theorem kelly_fraction_bounds (rm : GemRisk.RiskManager)
    (crm : CryptoRisk.CryptoRiskManager) (a b c : option Q) (k : Q) :
  (GemRisk.kelly_fraction rm a b c = Ok k ->
   0 <= k /\ (0 <= GemRisk.max_position_pct rm -> k <= GemRisk.max_position_pct rm)) /\
  (CryptoRisk.kelly_fraction crm a b c = Ok k ->
   0 <= k /\ k <= 0.15 /\
   (0 <= CryptoRisk.max_position_pct crm -> k <= CryptoRisk.max_position_pct crm)).
Proof.
  split; intros H.
  - apply gem_kelly_shape in H. destruct H as [x ->].
    split; [apply max_min_nonneg | apply max_min_upper].
  - apply crypto_kelly_shape in H. destruct H as [x ->].
    split; [apply max_min_nonneg |].
    set (cap := Py.min (CryptoRisk.max_position_pct crm) 0.15).
    assert (Hcap : cap <= 0.15 /\ cap <= CryptoRisk.max_position_pct crm).
    { unfold cap.
      destruct (min_spec (CryptoRisk.max_position_pct crm) 0.15)
        as [[H' ->] | [H' ->]]; lra. }
    assert (Hk : Py.max 0 (Py.min x cap) <= cap \/ Py.max 0 (Py.min x cap) = 0).
    { destruct (Qlt_le_dec cap 0) as [Hneg | Hpos].
      - right. unfold Py.max.
        destruct (Qlt_bool 0 (Py.min x cap)) eqn:E; [| reflexivity].
        apply Qlt_bool_iff in E.
        destruct (min_spec x cap) as [[H' E'] | [H' E']]; rewrite E' in E; lra.
      - left. apply max_min_upper, Hpos. }
    destruct Hk as [Hk | ->]; split; intros; lra.
Qed.

Lemma kelly_fraction_bounds_witness :
  (exists k, GemRisk.kelly_fraction Examples.s1_manager None None None = Ok k /\
             0 <= k /\ k <= 0.25) /\
  (exists k, CryptoRisk.kelly_fraction (CryptoRisk.__init__ ∅)
               (Some 0.9) (Some 0.5) (Some 0.1) = Ok k /\
             0 <= k /\ k <= 0.15).
Proof.
  split.
  - eexists. split; [vm_compute; reflexivity |].
    match goal with
    | |- 0 <= ?k /\ _ =>
        destruct (kelly_fraction_bounds Examples.s1_manager
                    (CryptoRisk.__init__ ∅) None None None k) as [Hg _]
    end.
    destruct Hg as [H0 H1]; [vm_compute; reflexivity |].
    split; [exact H0 |]. apply H1. concrete.
  - eexists. split; [vm_compute; reflexivity |].
    match goal with
    | |- 0 <= ?k /\ _ =>
        destruct (kelly_fraction_bounds Examples.s1_manager
                    (CryptoRisk.__init__ ∅) (Some 0.9) (Some 0.5) (Some 0.1) k)
          as [_ Hc]
    end.
    destruct Hc as (H0 & H1 & _); [vm_compute; reflexivity |].
    split; assumption.
Defined.



Lemma fold_sum_shift (l : list Q) (a : Q) :
  fold_left Qplus l a == a + Py.sum l.
Proof.
  unfold Py.sum. revert a. induction l as [| x l IH]; intros a; simpl.
  - ring.
  - rewrite (IH (a + x)), (IH (0 + x)). ring.
Qed.

Lemma sum_cons (x : Q) (l : list Q) : Py.sum (x :: l) == x + Py.sum l.
Proof.
  unfold Py.sum at 1. simpl. rewrite fold_sum_shift. ring.
Qed.

Lemma gem_record_all_ledger (trades : list Runs.ClosedTrade) :
  forall (rm : GemRisk.RiskManager) (d : Z),
    default 0 (GemRisk._daily_pnl (Runs.gem_record_all rm trades) !! d)
      == default 0 (GemRisk._daily_pnl rm !! d)
         + Py.sum (map Runs.ct_pnl (Runs.on_day d trades)) /\
    map GemRisk.tr_pnl (GemRisk._trade_history (Runs.gem_record_all rm trades))
      = map GemRisk.tr_pnl (GemRisk._trade_history rm) ++ map Runs.ct_pnl trades.
Proof.
  induction trades as [| t trades IH]; intros rm d.
  - simpl. split; [unfold Py.sum; simpl; ring | now rewrite app_nil_r].
  - change (Runs.gem_record_all rm (t :: trades))
      with (Runs.gem_record_all
              (GemRisk.record_trade rm (Runs.ct_symbol t) (Runs.ct_entry_price t)
                 (Runs.ct_exit_price t) (Runs.ct_pnl t) (Runs.ct_date t)) trades).
    destruct (IH (GemRisk.record_trade rm (Runs.ct_symbol t)
                    (Runs.ct_entry_price t) (Runs.ct_exit_price t)
                    (Runs.ct_pnl t) (Runs.ct_date t)) d) as [IH1 IH2].
    split.
    + rewrite IH1. unfold Runs.on_day. simpl.
      destruct (Z.eqb_spec (Runs.ct_date t) d) as [-> | Hne].
      * rewrite lookup_insert_eq. simpl. rewrite sum_cons. ring.
      * rewrite lookup_insert_ne by exact Hne. reflexivity.
    + rewrite IH2. simpl. rewrite map_app. simpl.
      now rewrite <- app_assoc.
Qed.

(** X3.  The per-day ledger kept by [record_trade]: after any sequence
    of recorded trades on a fresh equities manager, the entry of each day
    is the sum of the P&L of the trades closed that day (no entry meaning
    0), and the history holds the trades' P&L in the order recorded. *)
Theorem gem_daily_pnl_ledger (config : gmap string Q)
    (trades : list Runs.ClosedTrade) (d : Z) :
  let rm := Runs.gem_record_all (GemRisk.__init__ config) trades in
  default 0 (GemRisk._daily_pnl rm !! d)
    == Py.sum (map Runs.ct_pnl (Runs.on_day d trades)) /\
  map GemRisk.tr_pnl (GemRisk._trade_history rm) = map Runs.ct_pnl trades /\
  GemRisk.total_trades (GemRisk._calculate_historical_stats rm)
    = Z.of_nat (length trades).
Proof.
  intros rm.
  destruct (gem_record_all_ledger trades (GemRisk.__init__ config) d) as [H1 H2].
  fold rm in H1, H2. simpl in H1, H2.
  split; [rewrite H1; rewrite lookup_empty; simpl; ring |].
  split; [exact H2 |].
  assert (Hlen : length (GemRisk._trade_history rm) = length trades).
  { rewrite <- (length_map GemRisk.tr_pnl), H2. apply length_map. }
  unfold GemRisk._calculate_historical_stats.
  destruct (GemRisk._trade_history rm) eqn:E; simpl in *.
  - now rewrite <- Hlen.
  - now rewrite <- Hlen.
Qed.

Lemma filter_length_le {A : Type} (f : A -> bool) (l : list A) :
  (length (List.filter f l) <= length l)%nat.
Proof.
  induction l as [| x l IH]; simpl; [lia |]. destruct (f x); simpl; lia.
Qed.

Lemma len_ratio_unit {A : Type} (sub l : list A) :
  (length sub <= length l)%nat -> l <> [] ->
  0 <= Py.len sub / Py.len l /\ Py.len sub / Py.len l <= 1.
Proof.
  intros Hle Hne. unfold Py.len.
  assert (Hpos : 0 < inject_Z (Z.of_nat (length l))).
  { destruct l; [congruence |]. unfold Qlt. simpl. lia. }
  assert (Hsub : 0 <= inject_Z (Z.of_nat (length sub))).
  { unfold Qle. simpl. lia. }
  assert (Hle' : inject_Z (Z.of_nat (length sub)) <= inject_Z (Z.of_nat (length l))).
  { rewrite <- Zle_Qle. lia. }
  split.
  - apply Qle_shift_div_l; [exact Hpos | lra].
  - apply Qle_shift_div_r; [exact Hpos | lra].
Qed.

(** X4.  The statistics fed to the Kelly formula are well formed on both
    managers: the win rate lies in [[0,1]] and, for a non-negative default
    stop-loss fraction, the average loss is non-negative. *)
Theorem historical_stats_well_formed (rm : GemRisk.RiskManager)
    (crm : CryptoRisk.CryptoRiskManager) :
  (0 <= GemRisk.win_rate (GemRisk._calculate_historical_stats rm) /\
   GemRisk.win_rate (GemRisk._calculate_historical_stats rm) <= 1 /\
   (0 <= GemRisk.stop_loss_pct rm ->
    0 <= GemRisk.avg_loss (GemRisk._calculate_historical_stats rm))) /\
  (0 <= CryptoRisk.win_rate (CryptoRisk._calculate_historical_stats crm) /\
   CryptoRisk.win_rate (CryptoRisk._calculate_historical_stats crm) <= 1 /\
   (0 <= CryptoRisk.stop_loss_pct crm ->
    0 <= CryptoRisk.avg_loss (CryptoRisk._calculate_historical_stats crm))).
Proof.
  split.
  - unfold GemRisk._calculate_historical_stats.
    destruct (GemRisk._trade_history rm) as [| t h] eqn:E;
      cbn [GemRisk.win_rate GemRisk.avg_loss].
    + repeat split; try lra; auto.
    + pose proof (len_ratio_unit
        (List.filter (fun t => Qlt_bool 0 (GemRisk.tr_pnl t)) (t :: h)) (t :: h)
        (filter_length_le _ _)) as Hr.
      destruct Hr as [H0 H1]; [discriminate |].
      split; [exact H0 |]. split; [exact H1 |].
      intros Hs.
      destruct (List.filter (fun t => Qle_bool (GemRisk.tr_pnl t) 0) (t :: h));
        [exact Hs | apply Qabs_nonneg].
  - unfold CryptoRisk._calculate_historical_stats.
    destruct (CryptoRisk._trade_history crm) as [| t h] eqn:E;
      cbn [CryptoRisk.win_rate CryptoRisk.avg_loss].
    + repeat split; try lra; auto.
    + pose proof (len_ratio_unit
        (List.filter (fun t => Qlt_bool 0 (CryptoRisk.tr_pnl t)) (t :: h)) (t :: h)
        (filter_length_le _ _)) as Hr.
      destruct Hr as [H0 H1]; [discriminate |].
      split; [exact H0 |]. split; [exact H1 |].
      intros Hs.
      destruct (List.filter (fun t => Qle_bool (CryptoRisk.tr_pnl t) 0) (t :: h));
        [exact Hs | apply Qabs_nonneg].
Qed.

Lemma historical_stats_well_formed_witness :
  0 <= GemRisk.avg_loss (GemRisk._calculate_historical_stats Examples.s1_manager) /\
  0 <= CryptoRisk.avg_loss
         (CryptoRisk._calculate_historical_stats (CryptoRisk.__init__ ∅)).
Proof.
  destruct (historical_stats_well_formed Examples.s1_manager
              (CryptoRisk.__init__ ∅)) as [(_ & _ & Hg) (_ & _ & Hc)].
  split; [apply Hg | apply Hc]; concrete.
Defined.
















(** * Further properties of the trend analyser *)






(** X10.  The relative strength index is a percentage: whenever there are
    more prices than the period, [_calculate_rsi] returns a value in
    [[0, 100]], and exactly 100 when none of the last [period] price moves
    is a fall. *)
Theorem calculate_rsi_is_percentage (prices : list Q) (n : nat) :
  (S n < length prices)%nat ->
  (exists r, Trend._calculate_rsi prices (S n) = Ok (Some r) /\
             0 <= r /\ r <= 100) /\
  (Forall (fun d => 0 <= d) (Trend.last_n (S n) (Trend.deltas prices)) ->
   Trend._calculate_rsi prices (S n) = Ok (Some 100)).
Proof.
  intros Hlen. unfold Trend._calculate_rsi.
  replace (length prices <? S n + 1)%nat with false
    by (symmetry; apply Nat.ltb_ge; lia).
  set (gains := map (fun d => if Qlt_bool 0 d then d else 0) (Trend.deltas prices)).
  set (losses := map (fun d => if Qlt_bool d 0 then - d else 0) (Trend.deltas prices)).
  assert (Hg : Forall (fun x => 0 <= x) gains).
  { apply Forall_map, Forall_forall. intros d _. simpl.
    destruct (Qlt_bool 0 d) eqn:E; [apply Qlt_bool_iff in E |]; lra. }
  assert (Hl : Forall (fun x => 0 <= x) losses).
  { apply Forall_map, Forall_forall. intros d _. simpl.
    destruct (Qlt_bool d 0) eqn:E; [apply Qlt_bool_iff in E |]; lra. }
  pose proof (average_nonneg _ n (last_n_Forall _ (S n) _ Hg)) as Hag.
  pose proof (average_nonneg _ n (last_n_Forall _ (S n) _ Hl)) as Hal.
  set (avg_gain := Py.sum (Trend.last_n (S n) gains) / Trend.of_nat (S n)) in *.
  set (avg_loss := Py.sum (Trend.last_n (S n) losses) / Trend.of_nat (S n)) in *.
  split.
  - destruct (Qeq_bool avg_loss 0) eqn:E.
    { exists 100. split; [reflexivity | split; lra]. }
    assert (Hnz : ~ avg_loss == 0).
    { intros H. apply Qeq_bool_iff in H. congruence. }
    rewrite div_ok by exact Hnz. cbn [mbind result_bind].
    assert (Hrs : 0 <= avg_gain / avg_loss) by (apply Qle_shift_div_l; lra).
    rewrite div_ok by lra. cbn [mbind result_bind].
    eexists. split; [reflexivity |].
    assert (H0 : 0 < 100 / (1 + avg_gain / avg_loss))
      by (apply Qlt_shift_div_l; lra).
    assert (H1 : 100 / (1 + avg_gain / avg_loss) <= 100).
    { apply Qle_shift_div_r; lra. }
    split; lra.
  - intros Hup.
    assert (Hz : Py.sum (Trend.last_n (S n) losses) == 0).
    { assert (Hzero : Forall (fun x => x == 0) (Trend.last_n (S n) losses)).
      { unfold losses, Trend.last_n in *. rewrite length_map.
        rewrite skipn_map. apply Forall_map.
        eapply Forall_impl; [exact Hup |].
        intros d Hd. cbv beta in *.
        destruct (Qlt_bool d 0) eqn:E; [apply Qlt_bool_iff in E; lra | reflexivity]. }
      clear - Hzero. induction Hzero as [| x l Hx Hl' IH].
      - reflexivity.
      - rewrite sum_cons, Hx, IH. ring. }
    assert (E : Qeq_bool avg_loss 0 = true).
    { apply Qeq_bool_iff. unfold avg_loss. rewrite Hz. field.
      apply of_nat_S_nonzero. }
    now rewrite E.
Qed.

Lemma calculate_rsi_is_percentage_witness :
  (exists r, Trend._calculate_rsi
               (map inject_Z [10; 11; 10; 12; 11; 13; 12; 14; 13; 15; 14; 16;
                              15; 17; 16; 18]%Z) 14 = Ok (Some r) /\
             0 <= r /\ r <= 100) /\
  Trend._calculate_rsi (repeat 100 20) 14 = Ok (Some 100).
Proof.
  split.
  - apply (calculate_rsi_is_percentage
             (map inject_Z [10; 11; 10; 12; 11; 13; 12; 14; 13; 15; 14; 16;
                            15; 17; 16; 18]%Z) 13).
    simpl. lia.
  - apply (calculate_rsi_is_percentage (repeat 100 20) 13); [simpl; lia |].
    vm_compute. repeat constructor; discriminate.
Defined.

(** X11.  The MACD indicator only reflects the sign of the MACD line: with
    at least 35 prices the signal line is 0.9 times the MACD line
    [EMA12 - EMA26] and the histogram the remaining tenth, so the signal is
    bullish exactly when EMA12 is above EMA26 and bearish otherwise; with
    fewer prices there is no MACD and no MACD signal. *)
Theorem macd_signal_follows_macd_line (prices : list Q) :
  ((35 <= length prices)%nat ->
   exists fast slow,
     Trend._calculate_ema prices 12 = Some fast /\
     Trend._calculate_ema prices 26 = Some slow /\
     Trend._calculate_macd prices 12 26 9
       = (Some (fast - slow), Some ((fast - slow) * 0.9),
          Some ((fast - slow) - (fast - slow) * 0.9)) /\
     (slow < fast ->
      map Trend.signal
        (Trend.macd_signals (Some (fast - slow)) (Some ((fast - slow) * 0.9))
           (Some ((fast - slow) - (fast - slow) * 0.9))) = ["bullish"]) /\
     (fast <= slow ->
      map Trend.signal
        (Trend.macd_signals (Some (fast - slow)) (Some ((fast - slow) * 0.9))
           (Some ((fast - slow) - (fast - slow) * 0.9))) = ["bearish"])) /\
  ((length prices < 35)%nat ->
   Trend._calculate_macd prices 12 26 9 = (None, None, None) /\
   Trend.macd_signals None None None = []).
Proof.
  split.
  - intros Hlen.
    destruct (calculate_ema_some prices 12) as [fast Ef]; [lia |].
    destruct (calculate_ema_some prices 26) as [slow Es]; [lia |].
    exists fast, slow. split; [exact Ef |]. split; [exact Es |].
    split.
    { unfold Trend._calculate_macd.
      replace (length prices <? 26 + 9)%nat with false
        by (symmetry; apply Nat.ltb_ge; simpl; lia).
      now rewrite Ef, Es. }
    unfold Trend.macd_signals. split; intros H.
    + replace (Qlt_bool ((fast - slow) * 0.9) (fast - slow)) with true;
        [reflexivity |].
      symmetry. apply Qlt_bool_iff. lra.
    + replace (Qlt_bool ((fast - slow) * 0.9) (fast - slow)) with false;
        [reflexivity |].
      symmetry. apply Qlt_bool_false_iff. lra.
  - intros Hlen. split; [| reflexivity].
    unfold Trend._calculate_macd.
    now replace (length prices <? 26 + 9)%nat with true
      by (symmetry; apply Nat.ltb_lt; simpl; lia).
Qed.

Lemma macd_signal_follows_macd_line_witness :
  (exists fast slow,
     Trend._calculate_macd (map inject_Z (seqZ 1 40)) 12 26 9
       = (Some (fast - slow), Some ((fast - slow) * 0.9),
          Some ((fast - slow) - (fast - slow) * 0.9))) /\
  Trend._calculate_macd (repeat 100 34) 12 26 9 = (None, None, None).
Proof.
  destruct (macd_signal_follows_macd_line (map inject_Z (seqZ 1 40))) as [H _].
  destruct (macd_signal_follows_macd_line (repeat 100 34)) as [_ H'].
  split.
  - destruct H as (fast & slow & _ & _ & E & _); [vm_compute; lia |].
    exists fast, slow. exact E.
  - apply H'. simpl. lia.
Defined.

Lemma count_signals_disjoint (signals : list Trend.TrendSignal) :
  (Trend.count_signal "bullish" signals + Trend.count_signal "bearish" signals
   <= length signals)%nat.
Proof.
  unfold Trend.count_signal.
  induction signals as [| s l IH]; simpl; [lia |].
  destruct (String.eqb_spec (Trend.signal s) "bullish") as [E | E].
  - rewrite E. simpl. lia.
  - destruct (String.eqb (Trend.signal s) "bearish"); simpl; lia.
Qed.





(** X12.  Scores at the extremes of the vote: on a non-empty signal list
    with no bullish signal the score is 0, even when every signal is
    neutral; when every signal is bullish the direction is bullish with
    strength 100 and score 100. *)
Theorem score_extremes (signals : list Trend.TrendSignal) :
  signals <> [] ->
  (Trend.count_signal "bullish" signals = 0%nat ->
   forall d st, exists sc,
     Trend._calculate_score signals d st = Ok sc /\ sc == 0) /\
  (Trend.count_signal "bullish" signals = length signals ->
   exists st sc,
     Trend._determine_trend signals = Ok (Trend.BULLISH, st) /\ st == 100 /\
     Trend._calculate_score signals Trend.BULLISH st = Ok sc /\ sc == 100).
Proof.
  intros Hne.
  pose proof (length_nonzero signals Hne) as Htotal.
  assert (Hlen : (0 < length signals)%nat)
    by (destruct signals; [congruence | simpl; lia]).
  split.
  - intros Hzero d st. eexists.
    split; [apply calculate_score_nonempty; exact Hne |].
    rewrite Hzero. change (Trend.of_nat 0) with 0.
    assert (E : (50 + (0 / Trend.of_nat (length signals) - 0.5) * 100)
                * (0.5 + st / 200) == 0) by (field; exact Htotal).
    match goal with
    | |- Py.max 0 (Py.min 100 ?x) == 0 =>
        destruct (max_spec 0 (Py.min 100 x)) as [[H E1] | [H E1]]; rewrite E1;
          [| reflexivity];
        destruct (min_spec 100 x) as [[H' E2] | [H' E2]]; rewrite E2 in *; lra
    end.
  - intros Hall.
    pose proof (count_signals_disjoint signals) as Hd.
    assert (Hbear : Trend.count_signal "bearish" signals = 0%nat) by lia.
    assert (Est : Trend.of_nat (length signals) / Trend.of_nat (length signals)
                  * 100 == 100) by (field; exact Htotal).
    eexists. eexists.
    split.
    { rewrite determine_trend_nonempty by exact Hne.
      unfold Spec.majority. rewrite Hall, Hbear.
      replace (0 <? length signals)%nat with true
        by (symmetry; apply Nat.ltb_lt; exact Hlen).
      reflexivity. }
    split; [exact Est |].
    split; [apply calculate_score_nonempty; exact Hne |].
    rewrite Hall.
    assert (E : (50 + (Trend.of_nat (length signals)
                         / Trend.of_nat (length signals) - 0.5) * 100)
                * (0.5 + Trend.of_nat (length signals)
                           / Trend.of_nat (length signals) * 100 / 200)
                == 100) by (field; exact Htotal).
    match goal with
    | |- Py.max 0 (Py.min 100 ?x) == 100 =>
        destruct (max_spec 0 (Py.min 100 x)) as [[H E1] | [H E1]]; rewrite E1;
          destruct (min_spec 100 x) as [[H' E2] | [H' E2]];
          rewrite ?E2 in *; lra
    end.
Qed.

Lemma score_extremes_witness :
  (exists sc,
     Trend._calculate_score [Trend.mk_signal "RSI" "neutral" 50] Trend.NEUTRAL 50
       = Ok sc /\ sc == 0) /\
  (exists st sc,
     Trend._determine_trend
       [Trend.mk_signal "EMA Cross" "bullish" 1; Trend.mk_signal "MACD" "bullish" 1]
       = Ok (Trend.BULLISH, st) /\ st == 100 /\
     Trend._calculate_score
       [Trend.mk_signal "EMA Cross" "bullish" 1; Trend.mk_signal "MACD" "bullish" 1]
       Trend.BULLISH st = Ok sc /\ sc == 100).
Proof.
  split.
  - destruct (score_extremes [Trend.mk_signal "RSI" "neutral" 50]) as [H _];
      [discriminate |].
    apply H. reflexivity.
  - destruct (score_extremes
                [Trend.mk_signal "EMA Cross" "bullish" 1;
                 Trend.mk_signal "MACD" "bullish" 1]) as [_ H];
      [discriminate |].
    apply H. reflexivity.
Defined.








Lemma insert_asc_In (x y : Q) (l : list Q) :
  In y (Trend.insert_asc x l) <-> y = x \/ In y l.
Proof.
  induction l as [| z l IH]; simpl; [intuition congruence |].
  destruct (Qle_bool x z); simpl; rewrite ?IH; intuition congruence.
Qed.

Lemma insert_desc_In (x y : Q) (l : list Q) :
  In y (Trend.insert_desc x l) <-> y = x \/ In y l.
Proof.
  induction l as [| z l IH]; simpl; [intuition congruence |].
  destruct (Qle_bool z x); simpl; rewrite ?IH; intuition congruence.
Qed.

Lemma insert_asc_length (x : Q) (l : list Q) :
  length (Trend.insert_asc x l) = S (length l).
Proof.
  induction l as [| z l IH]; simpl; [reflexivity |].
  destruct (Qle_bool x z); simpl; congruence.
Qed.

Lemma insert_desc_length (x : Q) (l : list Q) :
  length (Trend.insert_desc x l) = S (length l).
Proof.
  induction l as [| z l IH]; simpl; [reflexivity |].
  destruct (Qle_bool z x); simpl; congruence.
Qed.

Lemma insert_asc_sorted (x : Q) (l : list Q) :
  Sorted Qle l -> Sorted Qle (Trend.insert_asc x l).
Proof.
  induction 1 as [| z l Hl IH Hhd]; simpl; [repeat constructor |].
  destruct (Qle_bool x z) eqn:E.
  - apply Qle_bool_iff in E. repeat constructor; assumption.
  - apply Qle_bool_false_iff in E. constructor; [exact IH |].
    destruct l as [| w l']; simpl.
    + constructor. lra.
    + inversion Hhd; subst. destruct (Qle_bool x w); constructor; lra.
Qed.

Lemma insert_desc_sorted (x : Q) (l : list Q) :
  Sorted (flip Qle) l -> Sorted (flip Qle) (Trend.insert_desc x l).
Proof.
  induction 1 as [| z l Hl IH Hhd]; simpl; [repeat constructor |].
  destruct (Qle_bool z x) eqn:E.
  - apply Qle_bool_iff in E. repeat constructor; assumption.
  - apply Qle_bool_false_iff in E. constructor; [exact IH |].
    destruct l as [| w l']; simpl.
    + constructor. unfold flip. lra.
    + inversion Hhd; subst. unfold flip in *.
      destruct (Qle_bool w x) eqn:E'; constructor; unfold flip;
        [apply Qle_bool_iff in E' |]; lra.
Qed.

Lemma sort_asc_spec (l : list Q) :
  Sorted Qle (Trend.sort_asc l) /\
  length (Trend.sort_asc l) = length l /\
  forall y, In y (Trend.sort_asc l) <-> In y l.
Proof.
  induction l as [| x l (IHs & IHl & IHi)]; simpl.
  - split; [constructor | split; [reflexivity | tauto]].
  - split; [apply insert_asc_sorted, IHs |].
    split; [rewrite insert_asc_length; congruence |].
    intros y. rewrite insert_asc_In, IHi. intuition congruence.
Qed.

Lemma sort_desc_spec (l : list Q) :
  Sorted (flip Qle) (Trend.sort_desc l) /\
  length (Trend.sort_desc l) = length l /\
  forall y, In y (Trend.sort_desc l) <-> In y l.
Proof.
  induction l as [| x l (IHs & IHl & IHi)]; simpl.
  - split; [constructor | split; [reflexivity | tauto]].
  - split; [apply insert_desc_sorted, IHs |].
    split; [rewrite insert_desc_length; congruence |].
    intros y. rewrite insert_desc_In, IHi. intuition congruence.
Qed.

Lemma firstn_sorted {A : Type} (R : A -> A -> Prop) (n : nat) (l : list A) :
  Sorted R l -> Sorted R (firstn n l).
Proof.
  revert l. induction n as [| n IH]; intros l Hl; simpl; [constructor |].
  destruct Hl as [| x l Hl Hhd]; [constructor |].
  constructor; [apply IH, Hl |].
  destruct Hhd; destruct n; simpl; constructor; assumption.
Qed.

Lemma firstn_In {A : Type} (n : nat) (l : list A) (y : A) :
  In y (firstn n l) -> In y l.
Proof.
  revert l. induction n as [| n IH]; intros [| x l]; simpl; try tauto.
  intros [-> | H]; auto.
Qed.

Lemma local_minima_In (prices : list Q) (y : Q) :
  In y (Trend.local_minima prices) -> In y prices.
Proof.
  induction prices as [| a l IH]; simpl; [tauto |].
  destruct l as [| b [| c l']]; simpl in *; try tauto.
  destruct (Qlt_bool b a && Qlt_bool b c); simpl; intros H.
  - destruct H as [-> | H]; [tauto | right; apply IH, H].
  - right. apply IH, H.
Qed.

Lemma local_maxima_In (prices : list Q) (y : Q) :
  In y (Trend.local_maxima prices) -> In y prices.
Proof.
  induction prices as [| a l IH]; simpl; [tauto |].
  destruct l as [| b [| c l']]; simpl in *; try tauto.
  destruct (Qlt_bool a b && Qlt_bool c b); simpl; intros H.
  - destruct H as [-> | H]; [tauto | right; apply IH, H].
  - right. apply IH, H.
Qed.

Lemma list_min_In (x : Q) (l : list Q) : In (Trend.list_min x l) (x :: l).
Proof.
  unfold Trend.list_min. revert x.
  induction l as [| y l IH]; intros x; simpl; [tauto |].
  destruct (Qlt_bool y x).
  - destruct (IH y) as [H | H]; simpl in *; auto.
  - destruct (IH x) as [H | H]; simpl in *; auto.
Qed.

Lemma list_max_In (x : Q) (l : list Q) : In (Trend.list_max x l) (x :: l).
Proof.
  unfold Trend.list_max. revert x.
  induction l as [| y l IH]; intros x; simpl; [tauto |].
  destruct (Qlt_bool x y).
  - destruct (IH y) as [H | H]; simpl in *; auto.
  - destruct (IH x) as [H | H]; simpl in *; auto.
Qed.

(** X14.  Support and resistance levels of a series of at least ten
    prices: both lists are non-empty, hold at most three levels, contain
    only prices of the series, and are ordered, supports ascending and
    resistances descending; a shorter series has no levels. *)
Theorem support_resistance_levels (prices : list Q) :
  ((10 <= length prices)%nat ->
   let supports := Trend._find_support_levels prices 3 in
   let resistances := Trend._find_resistance_levels prices 3 in
   supports <> [] /\ (length supports <= 3)%nat /\ Sorted Qle supports /\
   (forall y, In y supports -> In y prices) /\
   resistances <> [] /\ (length resistances <= 3)%nat /\
   Sorted (flip Qle) resistances /\
   (forall y, In y resistances -> In y prices)) /\
  ((length prices < 10)%nat ->
   Trend._find_support_levels prices 3 = [] /\
   Trend._find_resistance_levels prices 3 = []).
Proof.
  split.
  - intros Hlen. cbv zeta.
    unfold Trend._find_support_levels, Trend._find_resistance_levels.
    replace (length prices <? 10)%nat with false
      by (symmetry; apply Nat.ltb_ge; exact Hlen).
    destruct prices as [| p ps]; [simpl in Hlen; lia |].
    split; [| split; [| split; [| split; [| split; [| split; [| split]]]]]].
    + destruct (Trend.local_minima (p :: ps)) as [| m ms] eqn:E; [discriminate |].
      destruct (sort_asc_spec (m :: ms)) as (_ & Hl & _).
      destruct (Trend.sort_asc (m :: ms)); [discriminate | discriminate].
    + destruct (Trend.local_minima (p :: ps)); [simpl; lia |].
      rewrite length_firstn. lia.
    + destruct (Trend.local_minima (p :: ps)) as [| m ms];
        [repeat constructor |].
      apply firstn_sorted, sort_asc_spec.
    + intros y. destruct (Trend.local_minima (p :: ps)) as [| m ms] eqn:E.
      * intros [<- | []]. apply list_min_In.
      * intros H. apply firstn_In in H.
        destruct (sort_asc_spec (m :: ms)) as (_ & _ & Hi). apply Hi in H.
        apply local_minima_In. now rewrite E.
    + destruct (Trend.local_maxima (p :: ps)) as [| m ms] eqn:E; [discriminate |].
      destruct (sort_desc_spec (m :: ms)) as (_ & Hl & _).
      destruct (Trend.sort_desc (m :: ms)); [discriminate | discriminate].
    + destruct (Trend.local_maxima (p :: ps)); [simpl; lia |].
      rewrite length_firstn. lia.
    + destruct (Trend.local_maxima (p :: ps)) as [| m ms];
        [repeat constructor |].
      apply firstn_sorted, sort_desc_spec.
    + intros y. destruct (Trend.local_maxima (p :: ps)) as [| m ms] eqn:E.
      * intros [<- | []]. apply list_max_In.
      * intros H. apply firstn_In in H.
        destruct (sort_desc_spec (m :: ms)) as (_ & _ & Hi). apply Hi in H.
        apply local_maxima_In. now rewrite E.
  - intros Hlen.
    unfold Trend._find_support_levels, Trend._find_resistance_levels.
    now replace (length prices <? 10)%nat with true
      by (symmetry; apply Nat.ltb_lt; exact Hlen).
Qed.

Lemma support_resistance_levels_witness :
  let prices := map inject_Z [5; 3; 6; 2; 7; 4; 8; 1; 9; 5; 6]%Z in
  Sorted Qle (Trend._find_support_levels prices 3) /\
  Sorted (flip Qle) (Trend._find_resistance_levels prices 3) /\
  Trend._find_support_levels (repeat 100 9) 3 = [].
Proof.
  intros prices.
  destruct (support_resistance_levels prices) as [H _].
  destruct (support_resistance_levels (repeat 100 9)) as [_ H'].
  destruct H as (_ & _ & Hs & _ & _ & _ & Hr & _); [simpl; lia |].
  destruct H' as [E _]; [simpl; lia |].
  auto.
Defined.

(** * Further properties of regime detection *)

(** X15.  [detect_regime] never enters recovery: it answers
    [RECOVERY_MODE] or [RECOVERY_COMPLETE] only when the active regime is
    already [RECOVERY_MODE] and the VIX is not above the threshold, and
    [RECOVERY_COMPLETE] only when the price is above a non-zero recovery
    strike.  Conversely, while the active regime is [RECOVERY_MODE] and the
    VIX is not above the threshold, the answer is one of those two, whatever
    the last short put strike. *)
Theorem detect_regime_recovery (settings : Config.Settings)
    (self : Orchestrator.OrchestratorService)
    (current_regime : option Models.Regime) (md : Orchestrator.MarketData) :
  let answer := (Orchestrator.detect_regime settings self current_regime md).2 in
  (answer = Models.RECOVERY_MODE \/ answer = Models.RECOVERY_COMPLETE ->
   Orchestrator.vix md <= Config.VIX_SHUTDOWN_THRESHOLD settings /\
   exists regime, current_regime = Some regime /\
                  Models.regime_type regime = Models.RECOVERY_MODE) /\
  (answer = Models.RECOVERY_COMPLETE ->
   exists regime strike,
     current_regime = Some regime /\
     Models.recovery_strike regime = Some strike /\
     ~ strike == 0 /\ strike < Orchestrator.qqq_price md) /\
  (forall regime,
     current_regime = Some regime ->
     Models.regime_type regime = Models.RECOVERY_MODE ->
     Orchestrator.vix md <= Config.VIX_SHUTDOWN_THRESHOLD settings ->
     answer = Models.RECOVERY_MODE \/ answer = Models.RECOVERY_COMPLETE).
Proof.
  cbv zeta. unfold Orchestrator.detect_regime.
  cbn [snd Orchestrator.last_short_put_strike].
  destruct (Qlt_bool (Config.VIX_SHUTDOWN_THRESHOLD settings) (Orchestrator.vix md))
    eqn:Ev; [apply Qlt_bool_iff in Ev | apply Qlt_bool_false_iff in Ev].
  { split; [intros [H | H]; discriminate |].
    split; [discriminate | intros; lra]. }
  destruct current_regime as [regime |].
  2: { split; [intros [H | H]; discriminate |].
       split; [discriminate | intros; discriminate]. }
  destruct (decide (Models.regime_type regime = Models.RECOVERY_MODE)) as [Hr | Hr].
  - destruct (Models.recovery_strike regime) as [strike |] eqn:Es.
    + destruct (truthy (Some strike)) eqn:Et; simpl.
      * destruct (Qlt_bool strike (Orchestrator.qqq_price md)) eqn:Ep.
        -- apply Qlt_bool_iff in Ep.
           split; [intros _; split; [exact Ev | eauto] |].
           split; [| auto].
           intros _. exists regime, strike. repeat split; auto.
           intros Hz. unfold truthy in Et. apply Qeq_bool_iff in Hz.
           rewrite Hz in Et. discriminate.
        -- split; [intros _; split; [exact Ev | eauto] |].
           split; [discriminate | auto].
      * split; [intros _; split; [exact Ev | eauto] |].
        split; [discriminate | auto].
    + split; [intros _; split; [exact Ev | eauto] |].
      split; [discriminate | auto].
  - split.
    { intros H. exfalso.
      destruct (Orchestrator.last_short_put_strike self) as [s |];
        cbv iota beta in H.
      - destruct (truthy (Some s) && Qlt_bool (Orchestrator.qqq_price md) s);
          destruct H; discriminate.
      - destruct H; discriminate. }
    split.
    { intros H. exfalso.
      destruct (Orchestrator.last_short_put_strike self) as [s |];
        cbv iota beta in H.
      - destruct (truthy (Some s) && Qlt_bool (Orchestrator.qqq_price md) s);
          discriminate.
      - discriminate. }
    intros regime' E Hr'. injection E as <-. contradiction.
Qed.

Lemma detect_regime_recovery_witness :
  let self := {| Orchestrator.current_qqq_price := None;
                 Orchestrator.current_vix := None;
                 Orchestrator.last_short_put_strike := Some 600 |} in
  let regime := {| Models.regime_type := Models.RECOVERY_MODE;
                   Models.recovery_strike := Some 550 |} in
  let md := {| Orchestrator.qqq_price := 562.43; Orchestrator.vix := 17.0;
               Orchestrator.iv_7day_atm := 21.4; Orchestrator.source := "live" |} in
  (Orchestrator.detect_regime Config.settings self (Some regime) md).2
    = Models.RECOVERY_MODE \/
  (Orchestrator.detect_regime Config.settings self (Some regime) md).2
    = Models.RECOVERY_COMPLETE.
Proof.
  intros self regime md.
  destruct (detect_regime_recovery Config.settings self (Some regime) md)
    as (_ & _ & H).
  apply (H regime); [reflexivity | reflexivity | concrete].
Defined.

(** X16.  As the service runs it, with a shutdown threshold of at least
    17 (the default is 45) the VIX rule never fires, because the market
    data always reports a VIX of 17: [DEFENSE_TRIGGER] is then answered
    only outside recovery mode, when the price is below a non-zero last
    short put strike. *)
Theorem detect_regime_live_defense (settings : Config.Settings)
    (self : Orchestrator.OrchestratorService)
    (current_regime : option Models.Regime) (ib : IB.IBClient) :
  17 <= Config.VIX_SHUTDOWN_THRESHOLD settings ->
  (Orchestrator.detect_regime_live settings self current_regime ib).2
    = Models.DEFENSE_TRIGGER ->
  exists regime strike,
    current_regime = Some regime /\
    Models.regime_type regime <> Models.RECOVERY_MODE /\
    Orchestrator.last_short_put_strike self = Some strike /\
    ~ strike == 0 /\
    Orchestrator.qqq_price (Orchestrator.get_market_data ib) < strike.
Proof.
  intros Hthr. unfold Orchestrator.detect_regime_live, Orchestrator.detect_regime.
  cbn [snd Orchestrator.last_short_put_strike]. rewrite get_market_data_vix.
  replace (Qlt_bool (Config.VIX_SHUTDOWN_THRESHOLD settings) 17.0) with false
    by (symmetry; apply Qlt_bool_false_iff; lra).
  destruct current_regime as [regime |]; [| discriminate].
  destruct (decide (Models.regime_type regime = Models.RECOVERY_MODE)) as [Hr | Hr].
  - destruct (Models.recovery_strike regime) as [s |]; [| discriminate].
    destruct (truthy (Some s) && Qlt_bool s _); discriminate.
  - destruct (Orchestrator.last_short_put_strike self) as [strike |];
      [| discriminate].
    destruct (truthy (Some strike)) eqn:Et; [| discriminate].
    destruct (Qlt_bool _ strike) eqn:Ep; [| discriminate].
    intros _. exists regime, strike. repeat split; auto.
    + intros Hz. unfold truthy in Et. apply Qeq_bool_iff in Hz.
      rewrite Hz in Et. discriminate.
    + apply Qlt_bool_iff in Ep. exact Ep.
Qed.

Lemma detect_regime_live_defense_witness :
  let self := {| Orchestrator.current_qqq_price := None;
                 Orchestrator.current_vix := None;
                 Orchestrator.last_short_put_strike := Some 600 |} in
  let regime := {| Models.regime_type := Models.NORMAL_BULL;
                   Models.recovery_strike := None |} in
  17 <= Config.VIX_SHUTDOWN_THRESHOLD Config.settings /\
  (Orchestrator.detect_regime_live Config.settings self (Some regime)
     Examples.accepting_broker).2 = Models.DEFENSE_TRIGGER /\
  exists regime' strike,
    Some regime = Some regime' /\
    Models.regime_type regime' <> Models.RECOVERY_MODE /\
    Orchestrator.last_short_put_strike self = Some strike /\
    ~ strike == 0 /\
    Orchestrator.qqq_price (Orchestrator.get_market_data Examples.accepting_broker)
      < strike.
Proof.
  intros self regime.
  assert (H17 : 17 <= Config.VIX_SHUTDOWN_THRESHOLD Config.settings) by concrete.
  assert (Hd : (Orchestrator.detect_regime_live Config.settings self (Some regime)
                  Examples.accepting_broker).2 = Models.DEFENSE_TRIGGER)
    by reflexivity.
  split; [exact H17 |]. split; [exact Hd |].
  exact (detect_regime_live_defense Config.settings self (Some regime)
           Examples.accepting_broker H17 Hd).
Defined.

(** * Further properties of the recommendation lifecycle *)

Section LifecycleFrame.
Import Models Recommendation.

Variable db : gmap Z TradeRecommendation.

(** Every lifecycle operation either leaves the table as it is or
    replaces the targeted, existing row. *)
Lemma approve_touches_target (now now2 target : Z) :
  (approve_recommendation db now now2 target).1 = db \/
  exists r r', db !! target = Some r /\ status r = PENDING /\
               (approve_recommendation db now now2 target).1 = <[target := r']> db.
Proof.
  pose proof (approve_cases db now now2 target) as H.
  destruct (db !! target) as [r |] eqn:E.
  - destruct H as [[_ ->] | [(Hp & _ & ->) | (Hp & _ & ->)]]; simpl;
      [auto | right; exists r; eexists; auto | right; exists r; eexists; auto].
  - rewrite H. auto.
Qed.

Lemma reject_touches_target (now target : Z) (reason : option string) :
  (reject_recommendation db now target reason).1 = db \/
  exists r r', db !! target = Some r /\ status r = PENDING /\
               (reject_recommendation db now target reason).1 = <[target := r']> db.
Proof.
  pose proof (reject_cases db now target reason) as H.
  destruct (db !! target) as [r |] eqn:E.
  - destruct H as [[_ ->] | (Hp & ->)]; simpl;
      [auto | right; exists r; eexists; auto].
  - rewrite H. auto.
Qed.

Lemma execute_touches_target (ib : IB.IBClient) (now target : Z) :
  ((execute_recommendation ib db now target).1 = db /\
   success (execute_recommendation ib db now target).2 = false) \/
  exists r r', db !! target = Some r /\ status r = APPROVED /\
               (execute_recommendation ib db now target).1 = <[target := r']> db /\
               success (execute_recommendation ib db now target).2 = true.
Proof.
  unfold execute_recommendation, get_recommendation_by_id.
  destruct (db !! target) as [r |] eqn:E; [| left; auto].
  destruct (decide (status r = APPROVED)) as [Ha | Ha].
  - rewrite bool_decide_eq_true_2 by exact Ha. cbn [negb].
    destruct (negb (IB.is_connected ib) && negb (IB.connect ib)); [left; auto |].
    destruct (place_action ib r) as [[[[oid |] price] | early] | e] eqn:Hpa;
      cbn [fst snd]; try (left; split; reflexivity).
    + destruct (truthy_str oid); cbn [fst snd]; [| left; auto].
      right. eauto 10.
    + left. split; [reflexivity |]. eapply place_action_early, Hpa.
  - rewrite bool_decide_eq_false_2 by exact Ha. left. auto.
Qed.

(** X17.  A recommendation that is rejected, executed or expired is never
    modified again: approving, rejecting or executing any recommendation,
    and the expiry sweep, all leave such a row exactly as it is. *)
Theorem terminal_recommendations_frozen (ib : IB.IBClient)
    (now now2 rid target : Z) (reason : option string) (r : TradeRecommendation) :
  db !! rid = Some r ->
  status r = REJECTED \/ status r = EXECUTED \/ status r = EXPIRED ->
  (approve_recommendation db now now2 target).1 !! rid = Some r /\
  (reject_recommendation db now target reason).1 !! rid = Some r /\
  (execute_recommendation ib db now target).1 !! rid = Some r /\
  (expire_old_recommendations db now).1 !! rid = Some r.
Proof.
  intros Hr Hterm.
  assert (Hnp : status r <> PENDING) by (destruct Hterm as [H | [H | H]]; congruence).
  assert (Hna : status r <> APPROVED) by (destruct Hterm as [H | [H | H]]; congruence).
  split; [| split; [| split]].
  - destruct (approve_touches_target now now2 target)
      as [-> | (r0 & r' & Ht & Hp & ->)]; [exact Hr |].
    destruct (decide (target = rid)) as [-> | Hne];
      [congruence | now rewrite lookup_insert_ne].
  - destruct (reject_touches_target now target reason)
      as [-> | (r0 & r' & Ht & Hp & ->)]; [exact Hr |].
    destruct (decide (target = rid)) as [-> | Hne];
      [congruence | now rewrite lookup_insert_ne].
  - destruct (execute_touches_target ib now target)
      as [[-> _] | (r0 & r' & Ht & Hp & -> & _)]; [exact Hr |].
    destruct (decide (target = rid)) as [-> | Hne];
      [congruence | now rewrite lookup_insert_ne].
  - rewrite expire_lookup, Hr. simpl. unfold expire_matches.
    now rewrite bool_decide_eq_false_2 by exact Hnp.
Qed.

(** X18.  Approve, reject and execute touch nothing but their target:
    every other row is unchanged, and no row is added or removed. *)
Theorem lifecycle_operations_frame (ib : IB.IBClient) (now now2 target : Z)
    (reason : option string) :
  (forall other, other <> target ->
     (approve_recommendation db now now2 target).1 !! other = db !! other /\
     (reject_recommendation db now target reason).1 !! other = db !! other /\
     (execute_recommendation ib db now target).1 !! other = db !! other) /\
  dom (approve_recommendation db now now2 target).1 = dom db /\
  dom (reject_recommendation db now target reason).1 = dom db /\
  dom (execute_recommendation ib db now target).1 = dom db.
Proof.
  assert (Hdom : forall r r', db !! target = Some r ->
            dom (<[target := r']> db) = dom db).
  { intros r r' Hr. apply dom_insert_lookup_L. eauto. }
  split; [intros other Hne; split; [| split] | split; [| split]].
  - destruct (approve_touches_target now now2 target)
      as [-> | (r & r' & _ & _ & ->)]; [reflexivity |].
    now rewrite lookup_insert_ne.
  - destruct (reject_touches_target now target reason)
      as [-> | (r & r' & _ & _ & ->)]; [reflexivity |].
    now rewrite lookup_insert_ne.
  - destruct (execute_touches_target ib now target)
      as [[-> _] | (r & r' & _ & _ & -> & _)]; [reflexivity |].
    now rewrite lookup_insert_ne.
  - destruct (approve_touches_target now now2 target)
      as [-> | (r & r' & Hr & _ & ->)]; [reflexivity | eapply Hdom, Hr].
  - destruct (reject_touches_target now target reason)
      as [-> | (r & r' & Hr & _ & ->)]; [reflexivity | eapply Hdom, Hr].
  - destruct (execute_touches_target ib now target)
      as [[-> _] | (r & r' & Hr & _ & -> & _)]; [reflexivity | eapply Hdom, Hr].
Qed.

(** X19.  A refused operation changes nothing, with one exception: a
    failed execution and a refused rejection leave the table unchanged,
    and a refused approval leaves it unchanged unless the recommendation
    was pending and already past its expiry. *)
Theorem refused_operations_preserve_state (ib : IB.IBClient)
    (now now2 target : Z) (reason : option string) :
  (success (execute_recommendation ib db now target).2 = false ->
   (execute_recommendation ib db now target).1 = db) /\
  ((reject_recommendation db now target reason).2 = None ->
   (reject_recommendation db now target reason).1 = db) /\
  ((approve_recommendation db now now2 target).2 = None ->
   (approve_recommendation db now now2 target).1 = db \/
   exists r, db !! target = Some r /\ status r = PENDING /\
             (expires_at r < now)%Z).
Proof.
  split; [| split].
  - destruct (execute_touches_target ib now target)
      as [[E _] | (r & r' & _ & _ & _ & E)]; [auto | congruence].
  - pose proof (reject_cases db now target reason) as H.
    destruct (db !! target) as [r |].
    + destruct H as [[_ ->] | (_ & ->)]; simpl; [auto | discriminate].
    + rewrite H. auto.
  - pose proof (approve_cases db now now2 target) as H.
    destruct (db !! target) as [r |].
    + destruct H as [[_ ->] | [(Hp & Hlt & ->) | (_ & _ & ->)]]; simpl;
        [auto | eauto | discriminate].
    + rewrite H. auto.
Qed.

(** X20.  Execution does not look at the expiry time: an approved
    recommendation whose order the broker accepts is executed at any time,
    also after [expires_at]; the row then holds status executed, the order
    id, the execution price and the execution time. *)
Theorem execute_ignores_expiry (ib : IB.IBClient) (now rid : Z)
    (r : TradeRecommendation) (oid : string) (price : option Q) :
  db !! rid = Some r -> status r = APPROVED ->
  IB.is_connected ib = true \/ IB.connect ib = true ->
  place_action ib r = Ok (inl (Some oid, price)) -> oid <> "" ->
  execute_recommendation ib db now rid
    = (<[rid := set_executed now oid price (set_status EXECUTED r)]> db,
       ExecSuccess oid price (action r)) /\
  status <$> (execute_recommendation ib db now rid).1 !! rid = Some EXECUTED.
Proof.
  intros Hr Ha Hconn Hpa Hoid.
  assert (E : execute_recommendation ib db now rid
              = (<[rid := set_executed now oid price (set_status EXECUTED r)]> db,
                 ExecSuccess oid price (action r))).
  { unfold execute_recommendation, get_recommendation_by_id. rewrite Hr.
    rewrite bool_decide_eq_true_2 by exact Ha. cbn [negb].
    replace (negb (IB.is_connected ib) && negb (IB.connect ib)) with false
      by (destruct Hconn as [-> | ->];
          destruct (IB.is_connected ib); reflexivity).
    rewrite Hpa. unfold truthy_str.
    destruct (String.eqb_spec oid ""); [contradiction | reflexivity]. }
  split; [exact E |]. rewrite E. simpl. now rewrite lookup_insert_eq.
Qed.

End LifecycleFrame.

Lemma terminal_recommendations_frozen_witness :
  let db := Examples.lifecycle_db in
  (Recommendation.approve_recommendation db 50 51 3).1 !! 3%Z
    = Some (Examples.recommendation 3 100 Models.EXECUTED) /\
  (Recommendation.expire_old_recommendations db 200).1 !! 3%Z
    = Some (Examples.recommendation 3 100 Models.EXECUTED).
Proof.
  intros db.
  assert (H3 : db !! 3%Z = Some (Examples.recommendation 3 100 Models.EXECUTED))
    by reflexivity.
  destruct (terminal_recommendations_frozen db Examples.accepting_broker
              50 51 3 3 None _ H3) as (Ha & _); [right; left; reflexivity |].
  destruct (terminal_recommendations_frozen db Examples.accepting_broker
              200 201 3 3 None _ H3) as (_ & _ & _ & He);
    [right; left; reflexivity |].
  split; assumption.
Defined.

Lemma lifecycle_operations_frame_witness :
  let db := Examples.lifecycle_db in
  (Recommendation.approve_recommendation db 50 51 1).1 !! 2%Z = db !! 2%Z /\
  dom (Recommendation.execute_recommendation Examples.accepting_broker db 50 2).1
    = dom db.
Proof.
  intros db.
  destruct (lifecycle_operations_frame db Examples.accepting_broker 50 51 1 None)
    as (H & _).
  destruct (lifecycle_operations_frame db Examples.accepting_broker 50 51 2 None)
    as (_ & _ & _ & Hd).
  split; [apply (H 2%Z); lia | exact Hd].
Defined.

Lemma refused_operations_preserve_state_witness :
  let db := Examples.lifecycle_db in
  (Recommendation.execute_recommendation Examples.accepting_broker db 50 1).1 = db /\
  (Recommendation.reject_recommendation db 50 2 None).1 = db.
Proof.
  intros db.
  destruct (refused_operations_preserve_state db Examples.accepting_broker
              50 51 1 None) as (He & _).
  destruct (refused_operations_preserve_state db Examples.accepting_broker
              50 51 2 None) as (_ & Hr & _).
  split; [apply He | apply Hr]; reflexivity.
Defined.

Lemma execute_ignores_expiry_witness :
  let db := Examples.lifecycle_db in
  (100 < 200)%Z /\
  Models.status <$>
    (Recommendation.execute_recommendation Examples.accepting_broker db 200 2).1
      !! 2%Z = Some Models.EXECUTED.
Proof.
  intros db. split; [lia |].
  assert (H2 : db !! 2%Z = Some (Examples.recommendation 2 100 Models.APPROVED))
    by reflexivity.
  apply (execute_ignores_expiry db Examples.accepting_broker 200 2 _ "X"
           (Some 0.60) H2); [reflexivity | left; reflexivity | reflexivity |
                             discriminate].
Defined.

(** X21.  The expiry sweep composes: sweeping at [now] and again at a
    later time (or the same time: the sweep is idempotent) gives the table
    of one sweep at the later time.  After a sweep at [now] no pending row
    is past its expiry, so an approval attempted at that same time either
    succeeds or leaves the table unchanged. *)
Theorem expire_sweep_composes (db : gmap Z Models.TradeRecommendation)
    (now later now2 rid : Z) :
  ((now <= later)%Z ->
   (Recommendation.expire_old_recommendations
      (Recommendation.expire_old_recommendations db now).1 later).1
     = (Recommendation.expire_old_recommendations db later).1) /\
  (forall r,
     (Recommendation.expire_old_recommendations db now).1 !! rid = Some r ->
     ~ (Models.status r = Models.PENDING /\ (Models.expires_at r < now)%Z)) /\
  ((Recommendation.approve_recommendation
      (Recommendation.expire_old_recommendations db now).1 now now2 rid).2 = None ->
   (Recommendation.approve_recommendation
      (Recommendation.expire_old_recommendations db now).1 now now2 rid).1
     = (Recommendation.expire_old_recommendations db now).1).
Proof.
  assert (Hpost : forall k r,
    (Recommendation.expire_old_recommendations db now).1 !! k = Some r ->
    ~ (Models.status r = Models.PENDING /\ (Models.expires_at r < now)%Z)).
  { intros k r. rewrite expire_lookup.
    destruct (db !! k) as [r0 |]; simpl; [| discriminate].
    unfold Recommendation.expire_matches.
    destruct (decide (Models.status r0 = Models.PENDING)) as [Hp | Hp].
    - rewrite bool_decide_eq_true_2 by exact Hp. simpl.
      destruct (Z.ltb_spec (Models.expires_at r0) now); intros E;
        injection E as <-; simpl; intros [Hs Hlt]; [discriminate | lia].
    - rewrite bool_decide_eq_false_2 by exact Hp. simpl.
      intros E; injection E as <-. tauto. }
  split; [| split].
  - intros Hle. apply map_eq. intros k.
    rewrite !expire_lookup.
    destruct (db !! k) as [r |]; simpl; [| reflexivity]. f_equal.
    unfold Recommendation.expire_matches.
    destruct (decide (Models.status r = Models.PENDING)) as [Hp | Hp].
    + rewrite (bool_decide_eq_true_2 _ Hp). simpl.
      destruct (Z.ltb_spec (Models.expires_at r) now) as [H1 | H1]; simpl.
      * replace (Models.expires_at r <? later)%Z with true
          by (symmetry; apply Z.ltb_lt; lia).
        reflexivity.
      * now rewrite (bool_decide_eq_true_2 _ Hp).
    + rewrite (bool_decide_eq_false_2 _ Hp). simpl.
      now rewrite (bool_decide_eq_false_2 _ Hp).
  - apply Hpost.
  - pose proof (approve_cases
                  (Recommendation.expire_old_recommendations db now).1
                  now now2 rid) as H.
    destruct ((Recommendation.expire_old_recommendations db now).1 !! rid)
      as [r |] eqn:E.
    + destruct H as [[_ ->] | [(Hp & Hlt & _) | (_ & _ & ->)]]; simpl;
        [auto | | discriminate].
      exfalso. apply (Hpost _ _ E). auto.
    + rewrite H. auto.
Qed.

Lemma expire_sweep_composes_witness :
  let db := Examples.lifecycle_db in
  (Recommendation.expire_old_recommendations
     (Recommendation.expire_old_recommendations db 50).1 200).1
    = (Recommendation.expire_old_recommendations db 200).1 /\
  (Recommendation.approve_recommendation
     (Recommendation.expire_old_recommendations db 200).1 200 201 1).1
    = (Recommendation.expire_old_recommendations db 200).1.
Proof.
  intros db.
  destruct (expire_sweep_composes db 50 200 201 1) as (H & _).
  destruct (expire_sweep_composes db 200 200 201 1) as (_ & _ & H').
  split; [apply H; lia | apply H'; reflexivity].
Defined.

(** * Further properties of the crypto executor *)










(** * Further properties of the crypto executor *)

Ltac coherent_case :=
  cbn; repeat split; intros;
  try discriminate; try tauto; auto; try congruence;
  try (intuition discriminate);
  try (left; congruence).

Section ExecutorRuns.
Import CryptoExec.

Variable self : CryptoExecutor.
Variable client : RobinhoodCryptoClient.

(** The answer of the venue to the [i]-th status request, as the polling
    loop reads it: an exception counts as no answer. *)
Lemma wait_loop_spec (order_id : string) (remaining : nat) :
  forall w,
    let out := wait_loop client order_id remaining w in
    _trading_pairs_cache out.1 = _trading_pairs_cache w /\
    _cache_loaded out.1 = _cache_loaded w /\
    cancel_requests out.1 = cancel_requests w /\
    (status_requests w < status_requests out.1
       <= status_requests w + (remaining + 1) / 2 + 1)%nat /\
    out.2 = match get_order client order_id (status_requests out.1 - 1) with
            | Ok answer => answer
            | Raise _ => None
            end /\
    (forall i order,
       (status_requests w <= i < status_requests out.1 - 1)%nat ->
       get_order client order_id i = Ok (Some order) ->
       is_final_status (status order) = false) /\
    ((forall order, out.2 = Some order -> is_final_status (status order) = false) ->
     status_requests out.1 = (status_requests w + (remaining + 1) / 2 + 1)%nat).
Proof.
  induction remaining as [remaining IH] using lt_wf_ind. intros w.
  destruct remaining as [| r].
  - cbn [wait_loop]. unfold client_get_order. cbv zeta.
    destruct (get_order client order_id (status_requests w)) as [answer | e] eqn:E;
      cbn [fst snd status_requests _trading_pairs_cache _cache_loaded cancel_requests];
      replace (S (status_requests w) - 1)%nat with (status_requests w) by lia;
      rewrite E; change ((0 + 1) / 2)%nat with 0%nat;
      (repeat split; try reflexivity; try lia; intros; lia).
  - set (r0 := match r with O => r | S r' => r' end).
    assert (Hr0 : (r0 < S r)%nat) by (unfold r0; destruct r; lia).
    assert (Hhalf : ((S r + 1) / 2 = (r0 + 1) / 2 + 1)%nat).
    { unfold r0. destruct r as [| r']; [reflexivity |].
      replace (S (S r') + 1)%nat with (r' + 1 + 1 * 2)%nat by lia.
      rewrite Nat.div_add by lia. reflexivity. }
    assert (Hnext : forall w',
      match r with
      | O => wait_loop client order_id r w'
      | S r' => wait_loop client order_id r' w'
      end = wait_loop client order_id r0 w').
    { intros w'. unfold r0. destruct r; reflexivity. }
    cbn [wait_loop]. cbv zeta. unfold client_get_order.
    set (w1 := {| _trading_pairs_cache := _trading_pairs_cache w;
                  _cache_loaded := _cache_loaded w;
                  status_requests := S (status_requests w);
                  cancel_requests := cancel_requests w |}).
    pose proof (IH r0 Hr0 w1) as Hrec. cbv zeta in Hrec.
    rewrite Hhalf.
    assert (Hcont : forall answer,
      get_order client order_id (status_requests w) = answer ->
      (forall order, answer = Ok (Some order) -> is_final_status (status order) = false) ->
      let out := wait_loop client order_id r0 w1 in
      _trading_pairs_cache out.1 = _trading_pairs_cache w /\
      _cache_loaded out.1 = _cache_loaded w /\
      cancel_requests out.1 = cancel_requests w /\
      (status_requests w < status_requests out.1
         <= status_requests w + ((r0 + 1) / 2 + 1) + 1)%nat /\
      out.2 = match get_order client order_id (status_requests out.1 - 1) with
              | Ok answer => answer
              | Raise _ => None
              end /\
      (forall i order,
         (status_requests w <= i < status_requests out.1 - 1)%nat ->
         get_order client order_id i = Ok (Some order) ->
         is_final_status (status order) = false) /\
      ((forall order, out.2 = Some order -> is_final_status (status order) = false) ->
       status_requests out.1 = (status_requests w + ((r0 + 1) / 2 + 1) + 1)%nat)).
    { intros answer Ea Hnf. cbv zeta.
      destruct Hrec as (H1 & H2 & H3 & H4 & H5 & H6 & H7).
      cbn [status_requests w1] in H4, H6, H7.
      change (status_requests w1) with (S (status_requests w)) in H4, H6, H7.
      repeat split; try assumption; try lia.
      - intros i order Hi Ei.
        destruct (Nat.eq_dec i (status_requests w)) as [-> | Hne].
        + apply Hnf. rewrite <- Ea. exact Ei.
        + apply (H6 i order); [lia | exact Ei].
      - intros Hall. rewrite (H7 Hall). lia. }
    destruct (get_order client order_id (status_requests w))
      as [[order |] | e] eqn:E.
    + destruct (is_final_status (status order)) eqn:Ef.
      * unfold w1.
        cbn [fst snd status_requests _trading_pairs_cache _cache_loaded cancel_requests].
        replace (S (status_requests w) - 1)%nat with (status_requests w) by lia.
        rewrite E.
        repeat split; try reflexivity; try lia.
        intros Hall. specialize (Hall order eq_refl). congruence.
      * rewrite Hnext. fold w1. apply (Hcont _ eq_refl).
        intros o [= <-]. exact Ef.
    + rewrite Hnext. fold w1. apply (Hcont _ eq_refl). intros o [=].
    + rewrite Hnext. fold w1. apply (Hcont _ eq_refl). intros o [=].
Qed.

(** X24.  [_wait_for_fill] never raises and never cancels; it asks the
    venue for the order at least once and at most once per two seconds of
    the timeout plus once at the end, and uses all of these requests
    unless it returns an order in a final state.  The timeout is the
    configured one when none, or zero, is passed. *)
Theorem wait_for_fill_polling_bound (order_id : string)
    (timeout_seconds : option Z) (w : World) :
  let timeout :=
    match timeout_seconds with
    | Some 0%Z | None => order_timeout_seconds self
    | Some t => t
    end in
  let rounds := ((Z.to_nat timeout + 1) / 2)%nat in
  let out := _wait_for_fill self client order_id timeout_seconds w in
  (exists answer,
     out.2 = Ok answer /\
     ((forall order, answer = Some order -> is_final_status (status order) = false) ->
      status_requests out.1 = (status_requests w + rounds + 1)%nat)) /\
  (status_requests w < status_requests out.1
     <= status_requests w + rounds + 1)%nat /\
  cancel_requests out.1 = cancel_requests w /\
  _trading_pairs_cache out.1 = _trading_pairs_cache w /\
  _cache_loaded out.1 = _cache_loaded w.
Proof.
  cbv zeta. unfold _wait_for_fill.
  set (timeout := match timeout_seconds with
                  | Some t => if (t =? 0)%Z then order_timeout_seconds self else t
                  | None => order_timeout_seconds self
                  end).
  assert (Et : match timeout_seconds with
               | Some 0%Z | None => order_timeout_seconds self
               | Some t => t
               end = timeout).
  { unfold timeout. destruct timeout_seconds as [[| t | t] |]; reflexivity. }
  rewrite Et.
  pose proof (wait_loop_spec order_id (Z.to_nat timeout) w) as Hs.
  cbv zeta in Hs.
  destruct (wait_loop client order_id (Z.to_nat timeout) w) as [w' answer].
  cbn [fst snd] in *.
  destruct Hs as (H1 & H2 & H3 & H4 & _ & _ & H7).
  split; [exists answer; split; [reflexivity | exact H7] |].
  repeat split; try assumption; lia.
Qed.

(** X25.  The order returned by [_wait_for_fill] is the venue's answer to
    the last status request made (nothing, if that request raised), and
    no earlier request of the call was answered with an order in a final
    state: polling stops at the first final answer. *)
Theorem wait_for_fill_returns_latest_answer (order_id : string)
    (timeout_seconds : option Z) (w : World) :
  let out := _wait_for_fill self client order_id timeout_seconds w in
  let last := (status_requests out.1 - 1)%nat in
  out.2 = Ok (match get_order client order_id last with
              | Ok answer => answer
              | Raise _ => None
              end) /\
  (status_requests w <= last)%nat /\
  (forall i order,
     (status_requests w <= i < last)%nat ->
     get_order client order_id i = Ok (Some order) ->
     is_final_status (status order) = false).
Proof.
  cbv zeta. unfold _wait_for_fill.
  match goal with
  | |- context [wait_loop client order_id ?n w] =>
      pose proof (wait_loop_spec order_id n w) as Hs; cbv zeta in Hs;
      destruct (wait_loop client order_id n w) as [w' answer]
  end.
  cbn [fst snd] in *.
  destruct Hs as (_ & _ & _ & H4 & H5 & H6 & _).
  split; [rewrite H5; reflexivity |]. split; [lia | exact H6].
Qed.

Lemma ensure_cached_requests (w : World) :
  status_requests (_ensure_trading_pairs_cached client w).1 = status_requests w.
Proof.
  unfold _ensure_trading_pairs_cached.
  destruct (_cache_loaded w); [reflexivity |].
  destruct (get_trading_pairs client); reflexivity.
Qed.

(** X26.  Whatever the venue answers, the result of [execute_entry] is
    coherent: it is a buy of the requested (unrounded) quantity whose
    status is never pending or submitted; a partial fill carries a
    positive filled quantity; a cancelled, failed or rejected result
    carries no fill; the order id is missing exactly on failed and
    rejected results; a rejected result made no status or cancel request;
    and at most one cancellation is requested, only together with a
    cancelled result for that order or with an execution error. *)
Theorem execute_entry_result_coherent (symbol : string)
    (quantity current_price : Q) (limit_price : option Q) (w : World) :
  let out := execute_entry self client symbol quantity current_price
               limit_price w in
  let r := out.2 in
  (r_symbol r = symbol /\ r_side r = "buy" /\ r_requested_quantity r = quantity) /\
  (r_status r <> PENDING /\ r_status r <> SUBMITTED) /\
  (r_status r = PARTIALLY_FILLED -> 0 < r_filled_quantity r) /\
  (r_status r = CANCELLED \/ r_status r = FAILED \/ r_status r = REJECTED ->
   r_filled_quantity r = 0 /\ r_filled_price r = None) /\
  (r_order_id r = None <-> r_status r = FAILED \/ r_status r = REJECTED) /\
  (r_status r = REJECTED ->
   status_requests out.1 = status_requests w /\
   cancel_requests out.1 = cancel_requests w) /\
  (r_status r = CANCELLED -> r_message r = MsgTimedOut) /\
  (cancel_requests out.1 = cancel_requests w \/
   exists order_id,
     order_id <> "" /\
     cancel_requests out.1 = cancel_requests w ++ [order_id] /\
     (r_status r = CANCELLED /\ r_order_id r = Some order_id \/
      exists e, r_message r = MsgExecutionError e)).
Proof.
  cbv zeta. unfold execute_entry, execute_entry_try.
  destruct (_is_excluded_symbol symbol).
  { cbn. repeat split; try discriminate; try tauto; auto. }
  unfold mbind, M_bind, mret, M_ret, read_world, lift.
  pose proof (ensure_cached_cancel client w) as Hc.
  pose proof (ensure_cached_requests w) as Hq.
  destruct (_ensure_trading_pairs_cached client w) as [w1 [[] | e]];
    cbn [fst snd] in Hc, Hq.
  2: { cbn. repeat split; try discriminate; try tauto; auto. }
  destruct (negb (is_configured client)).
  { cbn. repeat split; try discriminate; try tauto; auto. }
  destruct (Qle_bool _ 0).
  { cbn. repeat split; try discriminate; try tauto; auto. }
  destruct (use_limit_orders self);
    (match goal with
     | |- context [place_order client symbol "buy" ?ot ?q ?lp] =>
         destruct (place_order client symbol "buy" ot q lp)
           as [[order |] | e];
         [| cbn; repeat split; try discriminate; try tauto; auto ..]
     end;
     unfold _wait_for_fill;
     match goal with
     | |- context [wait_loop client ?oid ?n w1] =>
         pose proof (wait_loop_cancel client oid n w1) as Hw;
         destruct (wait_loop client oid n w1) as [w2 filled]
     end;
     cbn [fst snd] in Hw).
  all: destruct filled as [filled |];
    [ destruct (String.eqb (status filled) "filled");
      [ coherent_case
      | destruct (Qlt_bool 0 (filled_quantity filled)) eqn:Eq;
        [ apply Qlt_bool_iff in Eq; coherent_case
        | ] ]
    | ].
  all: destruct (truthy_str (id order)) eqn:Et;
    [ unfold client_cancel_order; destruct (cancel_order client (id order)) | ];
    coherent_case.
  all: right; exists (id order); split;
    [ intros Hid; rewrite Hid in Et; discriminate Et
    | split;
      [ congruence
      | first [left; split; reflexivity | right; eexists; reflexivity] ] ].
Qed.

End ExecutorRuns.

Section CancelAnswer.
Import CryptoExec.

Variable self : CryptoExecutor.
Variables venue venue' : RobinhoodCryptoClient.

Hypothesis same_configuration : is_configured venue = is_configured venue'.
Hypothesis same_pairs : get_trading_pairs venue = get_trading_pairs venue'.
Hypothesis same_placement :
  forall symbol side order_type quantity limit_price,
    place_order venue symbol side order_type quantity limit_price
      = place_order venue' symbol side order_type quantity limit_price.
Hypothesis same_status :
  forall order_id n, get_order venue order_id n = get_order venue' order_id n.

Lemma wait_loop_same_venue (order_id : string) (remaining : nat) :
  forall w,
    wait_loop venue order_id remaining w = wait_loop venue' order_id remaining w.
Proof.
  induction remaining as [remaining IH] using lt_wf_ind. intros w.
  destruct remaining as [| r]; cbn [wait_loop]; unfold client_get_order;
    rewrite same_status; [reflexivity |].
  assert (Hnext : forall w',
    match r with
    | O => wait_loop venue order_id r w'
    | S r' => wait_loop venue order_id r' w'
    end
    = match r with
      | O => wait_loop venue' order_id r w'
      | S r' => wait_loop venue' order_id r' w'
      end).
  { intros w'. destruct r as [| r']; apply IH; lia. }
  cbv zeta.
  destruct (get_order venue' order_id (status_requests w)) as [[order |] | e];
    try apply Hnext.
  destruct (is_final_status (status order)); [reflexivity | apply Hnext].
Qed.

(** X27.  [execute_entry] does not look at the answer of the
    cancellation request: on two venues that behave alike except for
    what [cancel_order] returns (without raising), it returns the same
    result and leaves the same state; in particular an order whose
    cancellation the venue refused is still reported as cancelled. *)
Theorem execute_entry_ignores_cancel_answer (symbol : string)
    (quantity current_price : Q) (limit_price : option Q) (w : World) :
  (forall order_id, exists answer, cancel_order venue order_id = Ok answer) ->
  (forall order_id, exists answer, cancel_order venue' order_id = Ok answer) ->
  execute_entry self venue symbol quantity current_price limit_price w
    = execute_entry self venue' symbol quantity current_price limit_price w.
Proof.
  intros Hcancel Hcancel'.
  unfold execute_entry, execute_entry_try.
  destruct (_is_excluded_symbol symbol); [reflexivity |].
  unfold mbind, M_bind, mret, M_ret, read_world, lift.
  unfold _ensure_trading_pairs_cached. rewrite same_pairs, same_configuration.
  destruct (if _cache_loaded w then _ else _) as [w1 [[] | e]]; [| reflexivity].
  destruct (negb (is_configured venue')); [reflexivity |].
  destruct (Qle_bool _ 0); [reflexivity |].
  destruct (use_limit_orders self); rewrite same_placement;
    (match goal with
     | |- context [place_order venue' symbol "buy" ?ot ?q ?lp] =>
         destruct (place_order venue' symbol "buy" ot q lp)
           as [[order |] | e]; try reflexivity
     end;
     unfold _wait_for_fill; rewrite wait_loop_same_venue;
     match goal with
     | |- context [wait_loop venue' ?oid ?n w1] =>
         destruct (wait_loop venue' oid n w1) as [w2 filled]
     end;
     unfold client_cancel_order;
     destruct (Hcancel (id order)) as [answer ->];
     destruct (Hcancel' (id order)) as [answer' ->];
     destruct filled as [filled |];
     [ destruct (String.eqb (status filled) "filled"); [reflexivity |];
       destruct (Qlt_bool 0 (filled_quantity filled)); [reflexivity |]
     | ];
     destruct (truthy_str (id order)); reflexivity).
Qed.

End CancelAnswer.

Lemma execute_entry_ignores_cancel_answer_witness :
  CryptoExec.execute_entry Examples.default_executor Examples.idle_venue
    "BTC-USD" 1 100 None CryptoExec.initial_world
  = CryptoExec.execute_entry Examples.default_executor Examples.refusing_venue
      "BTC-USD" 1 100 None CryptoExec.initial_world /\
  CryptoExec.r_status
    (CryptoExec.execute_entry Examples.default_executor Examples.refusing_venue
       "BTC-USD" 1 100 None CryptoExec.initial_world).2 = CryptoExec.CANCELLED.
Proof.
  split; [| vm_compute; reflexivity].
  apply (execute_entry_ignores_cancel_answer Examples.default_executor
           Examples.idle_venue Examples.refusing_venue);
    try reflexivity; intros; eexists; reflexivity.
Defined.

Section ExitRuns.
Import CryptoExec.

Variable self : CryptoExecutor.
Variable client : RobinhoodCryptoClient.

Ltac exit_step :=
  match goal with
  | |- context [place_order client ?a1 ?a2 ?a3 ?a4 ?a5] =>
      destruct (place_order client a1 a2 a3 a4 a5) as [[?order |] | ?err]
  | |- context [wait_loop client ?oid ?n ?before] =>
      let H := fresh "Hs" in
      pose proof (wait_loop_spec client oid n before) as H; cbv zeta in H;
      destruct (wait_loop client oid n before) as [?after ?answer];
      cbn [fst snd] in H; destruct H as (_ & _ & ? & ? & _)
  | |- context [cancel_order client ?oid] =>
      destruct (cancel_order client oid)
  | |- context [truthy_str ?s] => destruct (truthy_str s) eqn:?
  | |- context [String.eqb (status ?o) "filled"] =>
      destruct (String.eqb (status o) "filled")
  | |- context [Qlt_bool 0 ?x] => destruct (Qlt_bool 0 x) eqn:?
  | |- context [match ?f with Some _ => _ | None => _ end] =>
      is_var f; destruct f
  end;
  cbv beta iota;
  cbn [fst snd andb status_requests cancel_requests client_cancel_order].

(** X28.  Whatever the venue answers, the result of [execute_exit] is a
    sell of the requested (unrounded) quantity whose status is filled,
    partially filled, failed or rejected, never cancelled, even after the
    limit order was cancelled; a partial fill carries a positive filled
    quantity; a rejected result made no status or cancel request; a
    result without order id is failed or rejected; the venue is polled
    for two timeouts at most and at most one cancellation is requested. *)
Theorem execute_exit_result_coherent (symbol : string) (quantity : Q)
    (current_price : option Q) (reason : string) (w : World) :
  let out := execute_exit self client symbol quantity current_price reason w in
  let r := out.2 in
  let rounds := ((Z.to_nat (order_timeout_seconds self) + 1) / 2)%nat in
  (x_symbol r = symbol /\ x_side r = "sell" /\ x_requested_quantity r = quantity) /\
  (x_status r = FILLED \/ x_status r = PARTIALLY_FILLED \/
   x_status r = FAILED \/ x_status r = REJECTED) /\
  (x_status r = PARTIALLY_FILLED ->
   0 < x_filled_quantity r /\ x_message r = ExitNotFullyFilled) /\
  (x_status r = REJECTED ->
   status_requests out.1 = status_requests w /\
   cancel_requests out.1 = cancel_requests w) /\
  (x_order_id r = None -> x_status r = FAILED \/ x_status r = REJECTED) /\
  (status_requests out.1 <= status_requests w + 2 * (rounds + 1))%nat /\
  (cancel_requests out.1 = cancel_requests w \/
   exists order_id,
     order_id <> "" /\
     cancel_requests out.1 = cancel_requests w ++ [order_id]).
Proof.
  cbv zeta. unfold execute_exit, execute_exit_try.
  unfold mbind, M_bind, mret, M_ret, read_world, lift.
  pose proof (ensure_cached_cancel client w) as Hc.
  pose proof (ensure_cached_requests client w) as Hq.
  destruct (_ensure_trading_pairs_cached client w) as [w1 [[] | e]];
    cbn [fst snd] in Hc, Hq.
  2: { coherent_case. lia. }
  destruct (negb (is_configured client)).
  { coherent_case. lia. }
  destruct (Qle_bool _ 0).
  { coherent_case. lia. }
  unfold _wait_for_fill.
  destruct (String.eqb reason "stop_loss");
    [| destruct (use_limit_orders self); cbn [andb];
       [destruct current_price as [price |];
        [destruct (truthy (Some price)) | cbn [truthy]] |] ].
  all: simpl (String.eqb "limit" "limit"); simpl (String.eqb "market" "limit").
  all: cbv beta iota; cbn [andb].
  all: repeat exit_step.
  all: cbn [x_symbol x_side x_order_type x_requested_quantity x_filled_quantity
            x_filled_price x_status x_order_id x_message mk_exit snd fst].
  all: repeat match goal with
       | H : Qlt_bool 0 _ = true |- _ => apply Qlt_bool_iff in H
       end.
  all: repeat split; intros; try discriminate; try reflexivity;
       try assumption; try lia; try congruence; auto 6.
  all: cbn [status_requests cancel_requests] in *; try lia.
  all: first
    [ left; congruence
    | match goal with
      | Ht : truthy_str (id ?o) = true |- _ =>
          right; exists (id o); split;
          [ intros Hid; rewrite Hid in Ht; discriminate Ht | congruence ]
      end ].
Qed.

(** X29.  A stop-loss exit, and any exit when limit orders are switched
    off or no current price is given, is one market order: no
    cancellation is ever requested, so an exit order that did not fill
    within the timeout stays open at the venue, and the venue is polled
    for one timeout at most. *)
Theorem execute_exit_market_never_cancels (symbol : string) (quantity : Q)
    (current_price : option Q) (reason : string) (w : World) :
  reason = "stop_loss" \/ use_limit_orders self = false \/
    truthy current_price = false ->
  let out := execute_exit self client symbol quantity current_price reason w in
  let rounds := ((Z.to_nat (order_timeout_seconds self) + 1) / 2)%nat in
  cancel_requests out.1 = cancel_requests w /\
  x_order_type out.2 <> "limit" /\
  (status_requests out.1 <= status_requests w + rounds + 1)%nat.
Proof.
  intros Hmarket. cbv zeta. unfold execute_exit, execute_exit_try.
  unfold mbind, M_bind, mret, M_ret, read_world, lift.
  pose proof (ensure_cached_cancel client w) as Hc.
  pose proof (ensure_cached_requests client w) as Hq.
  destruct (_ensure_trading_pairs_cached client w) as [w1 [[] | e]];
    cbn [fst snd] in Hc, Hq.
  2: { cbn. repeat split; [congruence | discriminate | lia]. }
  destruct (negb (is_configured client)).
  { cbn. repeat split; [congruence | discriminate | lia]. }
  destruct (Qle_bool _ 0).
  { cbn. repeat split; [congruence | discriminate | lia]. }
  unfold _wait_for_fill.
  assert (Hchoice :
    (if String.eqb reason "stop_loss" then ("market", @None Q)
     else if use_limit_orders self && truthy current_price then
       match current_price with
       | Some current_price =>
           ("limit",
            Some (_round_to_precision
                    (current_price * (1 - limit_offset_pct self))
                    (_get_price_precision w1 symbol)))
       | None => ("market", None)
       end
     else ("market", None)) = ("market", None)).
  { destruct Hmarket as [-> | [-> | ->]]; [reflexivity | |].
    - destruct (String.eqb reason "stop_loss"); reflexivity.
    - rewrite andb_false_r. destruct (String.eqb reason "stop_loss"); reflexivity. }
  rewrite Hchoice. simpl (String.eqb "market" "limit").
  cbv beta iota; cbn [andb].
  repeat exit_step.
  all: cbn [x_symbol x_side x_order_type x_requested_quantity x_filled_quantity
            x_filled_price x_status x_order_id x_message mk_exit snd fst].
  all: repeat split; try discriminate; try congruence; lia.
Qed.

(** X30.  When a limit exit is not reported filled at the timeout, the
    order is cancelled and a market order for the whole rounded quantity
    is placed, whatever part of the limit order had already filled and
    whatever the venue answered to the cancellation; if that market order
    fills, the result reports the market order's fill alone. *)
Theorem execute_exit_retry_sells_full_quantity (symbol : string)
    (quantity price : Q) (reason : string) (w w0 w1 w2 : World)
    (limit_order open_order market_order filled : CryptoOrder)
    (cancelled : bool) :
  let rounded :=
    _round_to_precision quantity (_get_quantity_precision w0 symbol) in
  let limit :=
    _round_to_precision (price * (1 - limit_offset_pct self))
      (_get_price_precision w0 symbol) in
  let timeout := Z.to_nat (order_timeout_seconds self) in
  _ensure_trading_pairs_cached client w = (w0, Ok tt) ->
  is_configured client = true ->
  use_limit_orders self = true ->
  reason <> "stop_loss" ->
  ~ price == 0 ->
  0 < rounded ->
  place_order client symbol "sell" "limit" rounded (Some limit)
    = Ok (Some limit_order) ->
  id limit_order <> "" ->
  wait_loop client (id limit_order) timeout w0 = (w1, Some open_order) ->
  status open_order <> "filled" ->
  cancel_order client (id limit_order) = Ok cancelled ->
  place_order client symbol "sell" "market" rounded None
    = Ok (Some market_order) ->
  wait_loop client (id market_order) timeout
    (client_cancel_order client (id limit_order) w1).1 = (w2, Some filled) ->
  status filled = "filled" ->
  execute_exit self client symbol quantity (Some price) reason w
    = (w2, mk_exit symbol "market" quantity (filled_quantity filled)
             (filled_price filled) FILLED (Some (id filled))
             (ExitFilledAtMarket reason)).
Proof.
  intros rounded limit timeout Hcache Hconf Hlimit Hreason Hprice Hrounded
    Hplace Hid Hwait Hopen Hcancel Hmarket Hwait' Hfilled.
  unfold execute_exit, execute_exit_try.
  unfold mbind, M_bind, mret, M_ret, read_world, lift.
  rewrite Hcache, Hconf. cbn [negb].
  fold rounded.
  assert (Er : Qle_bool rounded 0 = false).
  { apply Qle_bool_false_iff. exact Hrounded. }
  rewrite Er.
  apply String.eqb_neq in Hreason. rewrite Hreason, Hlimit.
  assert (Et : truthy (Some price) = true).
  { unfold truthy. destruct (Qeq_bool price 0) eqn:E; [| reflexivity].
    apply Qeq_bool_iff in E. contradiction. }
  rewrite Et. cbn [andb]. fold limit.
  rewrite Hplace. unfold _wait_for_fill. fold timeout.
  rewrite Hwait. apply String.eqb_neq in Hopen. rewrite Hopen.
  simpl (String.eqb "limit" "limit").
  assert (Ei : truthy_str (id limit_order) = true).
  { unfold truthy_str. apply String.eqb_neq in Hid. rewrite Hid. reflexivity. }
  rewrite Ei. cbn [andb].
  unfold client_cancel_order in *. rewrite Hcancel in *.
  cbn [fst] in Hwait'. rewrite Hmarket. rewrite Hwait'.
  rewrite Hfilled. reflexivity.
Qed.

End ExitRuns.

Lemma execute_exit_market_never_cancels_witness :
  let out :=
    CryptoExec.execute_exit Examples.limit_executor Examples.idle_venue
      "BTC-USD" 1 (Some 100) "stop_loss" CryptoExec.initial_world in
  CryptoExec.cancel_requests out.1 = [] /\
  CryptoExec.x_order_type out.2 <> "limit" /\
  CryptoExec.x_status out.2 = CryptoExec.FAILED.
Proof.
  cbv zeta.
  destruct (execute_exit_market_never_cancels Examples.limit_executor
              Examples.idle_venue "BTC-USD" 1 (Some 100) "stop_loss"
              CryptoExec.initial_world) as (H1 & H2 & _);
    [left; reflexivity |].
  split; [exact H1 |]. split; [exact H2 | vm_compute; reflexivity].
Defined.

Lemma execute_exit_retry_sells_full_quantity_witness :
  let out :=
    CryptoExec.execute_exit Examples.limit_executor Examples.thin_book_venue
      "BTC-USD" 1 (Some 100) "take_profit" CryptoExec.initial_world in
  CryptoExec.x_status out.2 = CryptoExec.FILLED /\
  CryptoExec.x_filled_quantity out.2 = 1 /\
  CryptoExec.x_order_id out.2 = Some "market-1" /\
  CryptoExec.cancel_requests out.1 = ["limit-1"].
Proof.
  cbv zeta.
  erewrite (execute_exit_retry_sells_full_quantity Examples.limit_executor
              Examples.thin_book_venue "BTC-USD" 1 100 "take_profit"
              CryptoExec.initial_world); cycle 1.
  - vm_compute; reflexivity.
  - reflexivity.
  - reflexivity.
  - discriminate.
  - concrete.
  - concrete.
  - vm_compute; reflexivity.
  - discriminate.
  - vm_compute; reflexivity.
  - discriminate.
  - vm_compute; reflexivity.
  - vm_compute; reflexivity.
  - vm_compute; reflexivity.
  - reflexivity.
  - repeat split; vm_compute; reflexivity.
Defined.
